(** * The login endpoint: validation, authentication and response shaping

    A shallow embedding of the TypeScript sources

      - [src/lib/validation/authValidation.ts]  (class [AuthValidation])
      - [src/lib/services/authService.ts]       (class [AuthService])
      - [src/lib/utils/responseUtils.ts]        (class [ResponseUtils])
      - [src/app/api/login/route.ts]            (the [POST] handler)

    together with the part of the JavaScript run time these functions rely
    on: truthiness, [typeof], property reads, the conversions behind
    [RegExp.prototype.test] and [<], [String.prototype.trim] and
    [String.prototype.toLowerCase].

    Conventions of the model.

    - A JavaScript string is a sequence of code units.  The model keeps the
      code units U+0000..U+00FF, one [ascii] each; on that range white space,
      [trim], [toLowerCase] and [length] are the ECMAScript ones.
    - A value is what [request.json()] can deliver (JSON data) or
      [undefined].  Functions never occur, so an own property always holds
      data, and a property read names an own property, an array index or
      [length]; inherited methods are reached through the operations that
      call them ([ToString], [callTrim]), never through [Get].
    - A thrown exception is an outcome: [Throw e].
    - Asynchronous functions thread a [World]: the clock read by
      [performance.now()], the lateness of the timers still to fire, and the
      console. *)

From Stdlib Require Import Bool List ZArith QArith Ascii String DecimalString Lia.
Import ListNotations.

Set Warnings "-register-all".

Local Open Scope string_scope.
Local Open Scope list_scope.
Local Open Scope Z_scope.

(* ================================================================= *)
(** ** Outcomes of evaluation *)

Inductive JsError : Type :=
| TypeError
| RangeError
| SyntaxError
| OtherError (description : string).

Inductive Completion (A : Type) : Type :=
| Normal (value : A)
| Throw (error : JsError).

Arguments Normal {A} value.
Arguments Throw {A} error.

Definition bindC {A B : Type} (c : Completion A) (k : A -> Completion B)
  : Completion B :=
  match c with
  | Normal a => k a
  | Throw e => Throw e
  end.

Declare Scope completion_scope.
Delimit Scope completion_scope with completion.
Notation "x <- c ;; k" := (bindC c (fun x => k))
  (at level 61, c at next level, right associativity) : completion_scope.

(** Left-to-right evaluation over a list, stopping at the first throw *)
Fixpoint mapC {A B : Type} (f : A -> Completion B) (l : list A)
  : Completion (list B) :=
  match l with
  | [] => Normal []
  | x :: rest =>
      (y <- f x ;; ys <- mapC f rest ;; Normal (y :: ys))%completion
  end.

(* ================================================================= *)
(** ** Numbers and values *)

(** A double is not-a-number, an infinity, or a finite value, kept as the
    rational it denotes (both zeros denote 0). *)
Inductive JsNumber : Type :=
| NaN
| Infinity (negative : bool)
| Finite (q : Q).

Definition numberOfZ (z : Z) : JsNumber := Finite (inject_Z z).
Definition numberOfNat (n : nat) : JsNumber := numberOfZ (Z.of_nat n).

Inductive JsValue : Type :=
| JsUndefined
| JsNull
| JsBoolean (b : bool)
| JsNumeric (n : JsNumber)
| JsString (s : string)
| JsArray (elements : list JsValue)
| JsObject (properties : list (string * JsValue)).

(** Two conversions are left to the run time: printing a finite number
    other than an integer of magnitude at most 2^53 (the shortest digits
    that read back as the same double, possibly with an exponent), and
    [StringToNumber].  The program reaches them only through coercions of
    ill-typed fields, and every statement below holds whatever they
    compute. *)
Class JsBuiltins : Type := {
  FiniteToString : Q -> string;
  StringToNumber : string -> JsNumber
}.

(* ================================================================= *)
(** ** Strings *)

Definition codeUnit (c : ascii) : N := N_of_ascii c.

(** [WhiteSpace] and [LineTerminator] below U+0100: TAB, LF, VT, FF, CR,
    SP and NBSP.  This is the set [trim] strips and [\s] matches. *)
Definition isWhiteSpace (c : ascii) : bool :=
  let n := codeUnit c in
  (((9 <=? n) && (n <=? 13)) || (n =? 32) || (n =? 160))%N.

(** Lower-case mapping of one code unit: A-Z, and the Latin-1 capitals
    U+00C0..U+00DE except the multiplication sign U+00D7. *)
Definition toLowerCaseUnit (c : ascii) : ascii :=
  let n := codeUnit c in
  if (((65 <=? n) && (n <=? 90))
      || ((192 <=? n) && (n <=? 222) && negb (n =? 215)))%N
  then ascii_of_N (n + 32)
  else c.

Fixpoint toLowerCase (s : string) : string :=
  match s with
  | EmptyString => EmptyString
  | String c rest => String (toLowerCaseUnit c) (toLowerCase rest)
  end.

Fixpoint trimStart (s : string) : string :=
  match s with
  | EmptyString => EmptyString
  | String c rest => if isWhiteSpace c then trimStart rest else s
  end.

Fixpoint trimEnd (s : string) : string :=
  match s with
  | EmptyString => EmptyString
  | String c rest =>
      match trimEnd rest with
      | EmptyString => if isWhiteSpace c then EmptyString else String c EmptyString
      | kept => String c kept
      end
  end.

Definition trim (s : string) : string := trimEnd (trimStart s).

(** A string that does not begin with white space *)
Definition startsClean (s : string) : bool :=
  match s with
  | EmptyString => true
  | String c _ => negb (isWhiteSpace c)
  end.

Fixpoint join (separator : string) (pieces : list string) : string :=
  match pieces with
  | [] => EmptyString
  | [piece] => piece
  | piece :: rest => piece ++ separator ++ join separator rest
  end.

(* ================================================================= *)
(** ** Regular expressions

    The fragment the program uses: a pattern anchored at both ends,
    [/^ ... $/] without flags, whose terms are one character or a
    character set, possibly under [+]. *)

Inductive ClassAtom : Type :=
| ClassWhiteSpace              (* \s *)
| ClassChar (c : ascii).

Inductive CharSet : Type :=
| Literal (c : ascii)          (* @  \. *)
| NoneOf (atoms : list ClassAtom).   (* [^...] *)

Inductive Term : Type :=
| One (set : CharSet)
| OneOrMore (set : CharSet).   (* set+ *)

Definition RegExp : Type := list Term.

Definition atomMatches (a : ClassAtom) (c : ascii) : bool :=
  match a with
  | ClassWhiteSpace => isWhiteSpace c
  | ClassChar d => Ascii.eqb c d
  end.

Definition setMatches (set : CharSet) (c : ascii) : bool :=
  match set with
  | Literal d => Ascii.eqb c d
  | NoneOf atoms => negb (existsb (fun a => atomMatches a c) atoms)
  end.

(** Backtracking match of the whole input; [+] is greedy, as in the
    engine, which does not change whether a match exists. *)
Fixpoint matchesFrom (pattern : RegExp) : string -> bool :=
  match pattern with
  | [] => fun input => match input with EmptyString => true | _ => false end
  | One set :: rest =>
      fun input =>
        match input with
        | EmptyString => false
        | String c tail => setMatches set c && matchesFrom rest tail
        end
  | OneOrMore set :: rest =>
      fix more (input : string) : bool :=
        match input with
        | EmptyString => false
        | String c tail =>
            setMatches set c && (more tail || matchesFrom rest tail)
        end
  end.

(** What it is for the whole input to match, stated without an
    algorithm; [matchesFrom_spec] below shows the matcher decides it. *)
Inductive Matches : RegExp -> string -> Prop :=
| Matches_end : Matches [] EmptyString
| Matches_one (set : CharSet) (c : ascii) (rest : RegExp) (tail : string) :
    setMatches set c = true ->
    Matches rest tail ->
    Matches (One set :: rest) (String c tail)
| Matches_last (set : CharSet) (c : ascii) (rest : RegExp) (tail : string) :
    setMatches set c = true ->
    Matches rest tail ->
    Matches (OneOrMore set :: rest) (String c tail)
| Matches_more (set : CharSet) (c : ascii) (rest : RegExp) (tail : string) :
    setMatches set c = true ->
    Matches (OneOrMore set :: rest) tail ->
    Matches (OneOrMore set :: rest) (String c tail).

(* ================================================================= *)
(** ** The run time: truthiness, [typeof], property reads, coercions *)

Definition isZero (n : JsNumber) : bool :=
  match n with
  | Finite q => (Qnum q =? 0)%Z
  | _ => false
  end.

Definition ToBoolean (v : JsValue) : bool :=
  match v with
  | JsUndefined | JsNull => false
  | JsBoolean b => b
  | JsNumeric NaN => false
  | JsNumeric n => negb (isZero n)
  | JsString s => negb (String.eqb s "")
  | JsArray _ | JsObject _ => true
  end.

Definition typeof (v : JsValue) : string :=
  match v with
  | JsUndefined => "undefined"
  | JsBoolean _ => "boolean"
  | JsNumeric _ => "number"
  | JsString _ => "string"
  | JsNull | JsArray _ | JsObject _ => "object"
  end.

(** [a || b] *)
Definition logicalOr (a b : JsValue) : JsValue :=
  if ToBoolean a then a else b.

(** Own property of an object; of two bindings of one name the later one
    is the property, as in [JSON.parse]. *)
Fixpoint lookup (name : string) (properties : list (string * JsValue))
  : option JsValue :=
  match properties with
  | [] => None
  | (key, v) :: rest =>
      match lookup name rest with
      | Some later => Some later
      | None => if String.eqb key name then Some v else None
      end
  end.

Definition hasOwnProperty (name : string) (properties : list (string * JsValue))
  : bool :=
  match lookup name properties with Some _ => true | None => false end.

Definition isDigit (c : ascii) : bool :=
  ((48 <=? codeUnit c) && (codeUnit c <=? 57))%N.

Fixpoint digitsValue (digits : string) (acc : nat) : option nat :=
  match digits with
  | EmptyString => Some acc
  | String c rest =>
      if isDigit c
      then digitsValue rest (10 * acc + (N.to_nat (codeUnit c) - 48))%nat
      else None
  end.

(** A property name that is an array index: a canonical decimal numeral. *)
Definition arrayIndex (name : string) : option nat :=
  match name with
  | EmptyString => None
  | String c rest =>
      if Ascii.eqb c "0"
      then match rest with EmptyString => Some 0%nat | _ => None end
      else digitsValue name 0
  end.

(** [v.name], or [v[name]] *)
Definition Get (v : JsValue) (name : string) : Completion JsValue :=
  match v with
  | JsUndefined | JsNull => Throw TypeError
  | JsBoolean _ | JsNumeric _ => Normal JsUndefined
  | JsString s =>
      if String.eqb name "length"
      then Normal (JsNumeric (numberOfNat (String.length s)))
      else match arrayIndex name with
           | Some i =>
               match String.get i s with
               | Some c => Normal (JsString (String c EmptyString))
               | None => Normal JsUndefined
               end
           | None => Normal JsUndefined
           end
  | JsArray elements =>
      if String.eqb name "length"
      then Normal (JsNumeric (numberOfNat (List.length elements)))
      else match arrayIndex name with
           | Some i => Normal (nth i elements JsUndefined)
           | None => Normal JsUndefined
           end
  | JsObject properties =>
      match lookup name properties with
      | Some w => Normal w
      | None => Normal JsUndefined
      end
  end.

Section Coercions.
Context `{JsBuiltins}.

(** [Number::toString] in radix 10 *)
Definition NumberToString (n : JsNumber) : string :=
  match n with
  | NaN => "NaN"
  | Infinity negative => if negative then "-Infinity" else "Infinity"
  | Finite q =>
      let numerator := Qnum q in
      let denominator := Z.pos (Qden q) in
      if (numerator mod denominator =? 0)
         && (Z.abs (numerator / denominator) <=? 2 ^ 53)
      then NilZero.string_of_int (Z.to_int (numerator / denominator))
      else FiniteToString q
  end.

(** [ToString].  An array is joined with commas, [null] and [undefined]
    elements giving the empty piece.  A plain object prints through
    [Object.prototype.toString], unless an own [toString] property (data,
    hence not callable) shadows it: [valueOf] then returns the object
    itself and the conversion throws. *)
Fixpoint ToString (v : JsValue) : Completion string :=
  match v with
  | JsUndefined => Normal "undefined"
  | JsNull => Normal "null"
  | JsBoolean b => Normal (if b then "true" else "false")
  | JsNumeric n => Normal (NumberToString n)
  | JsString s => Normal s
  | JsArray elements =>
      (pieces <- mapC (fun x => match x with
                                | JsUndefined | JsNull => Normal ""
                                | _ => ToString x
                                end) elements ;;
       Normal (join "," pieces))%completion
  | JsObject properties =>
      if hasOwnProperty "toString" properties
      then Throw TypeError
      else Normal "[object Object]"
  end.

(** [ToPrimitive]: with either hint an array or object ends in its
    [toString], since the inherited [valueOf] returns the object. *)
Definition ToPrimitive (v : JsValue) : Completion JsValue :=
  match v with
  | JsArray _ | JsObject _ =>
      (s <- ToString v ;; Normal (JsString s))%completion
  | _ => Normal v
  end.

Definition ToNumber (v : JsValue) : Completion JsNumber :=
  (p <- ToPrimitive v ;;
   Normal match p with
          | JsUndefined => NaN
          | JsNull => numberOfZ 0
          | JsBoolean b => numberOfZ (if b then 1 else 0)
          | JsNumeric n => n
          | JsString s => StringToNumber s
          | JsArray _ | JsObject _ => NaN
          end)%completion.

(** [Number::lessThan], with [undefined] (a [NaN] operand) read as
    [false], as [<] does. *)
Definition numberLessThan (x y : JsNumber) : bool :=
  match x, y with
  | NaN, _ | _, NaN => false
  | Infinity true, Infinity true => false
  | Infinity true, _ => true
  | Infinity false, _ => false
  | Finite _, Infinity negative => negb negative
  | Finite a, Finite b => negb (Qle_bool b a)
  end.

(** [v < n] for a number [n] *)
Definition IsLessThan (v : JsValue) (n : JsNumber) : Completion bool :=
  (nv <- ToNumber v ;; Normal (numberLessThan nv n))%completion.

(** [regexp.test(v)] for a pattern without flags *)
Definition RegExpTest (regexp : RegExp) (v : JsValue) : Completion bool :=
  (s <- ToString v ;; Normal (matchesFrom regexp s))%completion.

End Coercions.

(** [v.trim()]: [String.prototype.trim] for a string; any other value has
    no callable [trim]. *)
Definition callTrim (v : JsValue) : Completion string :=
  match v with
  | JsString s => Normal (trim s)
  | _ => Throw TypeError
  end.

(** [v === literal] for a string literal *)
Definition IsStrictlyEqual (v : JsValue) (literal : string) : bool :=
  match v with
  | JsString s => String.eqb s literal
  | _ => false
  end.

(* ================================================================= *)
(** ** Asynchronous functions and their effects *)

(** The calls the handler makes; a logged line is kept as its fixed text
    and the duration interpolated into it. *)
Inductive ConsoleCall : Type :=
| console_time (label : string)
| console_timeEnd (label : string)
| console_log (text : string) (milliseconds : Z)
| console_error (text : string) (error : JsError).

(** The clock in milliseconds, how late each timer still to be set will
    fire (early, when negative: by this clock a timer may resume a little
    before its delay has passed), and the console calls made so far with
    the time of each. *)
Record World : Type := {
  now : Z;
  lateness : list Z;
  console : list (Z * ConsoleCall)
}.

Definition Async (A : Type) : Type := World -> Completion A * World.

Definition ret {A : Type} (a : A) : Async A := fun w => (Normal a, w).

Definition bindA {A B : Type} (m : Async A) (k : A -> Async B) : Async B :=
  fun w =>
    match m w with
    | (Normal a, w') => k a w'
    | (Throw e, w') => (Throw e, w')
    end.

(** A synchronous step inside an asynchronous function *)
Definition liftC {A : Type} (c : Completion A) : Async A := fun w => (c, w).

(** [try { body } catch (error) { handler }] *)
Definition tryCatch {A : Type} (body : Async A) (handler : JsError -> Async A)
  : Async A :=
  fun w =>
    match body w with
    | (Normal a, w') => (Normal a, w')
    | (Throw e, w') => handler e w'
    end.

Declare Scope async_scope.
Delimit Scope async_scope with async.
Notation "x <- c ;; k" := (bindA c (fun x => k))
  (at level 61, c at next level, right associativity) : async_scope.
Notation "c ;; k" := (bindA c (fun _ => k))
  (at level 61, right associativity) : async_scope.

(** [performance.now()] *)
Definition performance_now : Async Z := fun w => (Normal (now w), w).

(** A call of the console, recorded with the time at which it is made *)
Definition call (c : ConsoleCall) : Async unit :=
  fun w =>
    (Normal tt,
     {| now := now w; lateness := lateness w;
        console := console w ++ [(now w, c)] |}).

(** [await new Promise(resolve => setTimeout(resolve, ms))]: the function
    resumes [ms] milliseconds later, give or take the lateness of the
    timer. *)
Definition awaitTimeout (ms : Z) : Async unit :=
  fun w =>
    (Normal tt,
     {| now := now w + ms + hd 0 (lateness w);
        lateness := tl (lateness w);
        console := console w |}).

(** The result an asynchronous call settles with *)
Definition settled {A : Type} (m : Async A) (w : World) : Completion A :=
  fst (m w).

(* ================================================================= *)
(** ** Data of the program *)

(** [interface ValidationError] *)
Module ValidationError.
Record t : Type := make { field : string; message : string }.
End ValidationError.
Abbreviation ValidationError := ValidationError.t.

(** [interface LoginCredentials].  The annotation [string] is erased at
    run time: a field holds whatever value was stored in it. *)
Module LoginCredentials.
Record t : Type := make { email : JsValue; password : JsValue }.

(** The record as the object it is *)
Definition object (c : t) : JsValue :=
    JsObject [("email", email c); ("password", password c)].
End LoginCredentials.
Abbreviation LoginCredentials := LoginCredentials.t.

(** [interface AuthResult]; [data] is optional. *)
Module AuthResult.
Record t : Type := make {
    success : bool;
    message : string;
    statusCode : Z;
    data : option JsValue
  }.
End AuthResult.
Abbreviation AuthResult := AuthResult.t.

(** The JSON envelope handed to [NextResponse.json]; [errors] and [data]
    are the keys that may be missing. *)
Module Body.
Record t : Type := make {
    success : bool;
    message : string;
    errors : option (list ValidationError);
    data : option JsValue
  }.
End Body.

Module Response.
Record t : Type := make { status : Z; body : Body.t }.
End Response.
Abbreviation Response := Response.t.

(** The incoming request, as far as the handler looks at it: what
    [await request.json()] gives, a value or a rejection. *)
Module Request.
Record t : Type := make { json : Completion JsValue }.
End Request.
Abbreviation Request := Request.t.

(* ================================================================= *)
(** ** [NextResponse.json] *)

Module NextResponse.

  (** [NextResponse.json(body, { status })], and [NextResponse.json(body)]
      for [None].  The status is read as an unsigned short; the response
      constructor rejects one outside 200..599 with a [RangeError], and a
      body together with a null-body status with a [TypeError]. *)
Definition json (body : Body.t) (init : option Z) : Completion Response :=
    let status := match init with Some s => s mod 65536 | None => 200 end in
    if (status <? 200) || (599 <? status) then Throw RangeError
    else if (status =? 204) || (status =? 205) || (status =? 304)
         then Throw TypeError
         else Normal {| Response.status := status; Response.body := body |}.

End NextResponse.

(* ================================================================= *)
(** ** [class AuthValidation]  (src/lib/validation/authValidation.ts) *)

Module AuthValidation.
Section WithBuiltins.
Context `{JsBuiltins}.

Definition MIN_PASSWORD_LENGTH : JsNumber := numberOfZ 6.

(** [/^[^\s@]+@[^\s@]+\.[^\s@]+$/] *)
Definition EMAIL_REGEX : RegExp :=
  let notSpaceOrAt := NoneOf [ClassWhiteSpace; ClassChar "@"] in
  [ OneOrMore notSpaceOrAt; One (Literal "@");
    OneOrMore notSpaceOrAt; One (Literal ".");
    OneOrMore notSpaceOrAt ].

(** [errors.push(e)] *)
Definition push (errors : list ValidationError) (e : ValidationError)
  : list ValidationError := errors ++ [e].

Definition validateLoginCredentials (credentials : JsValue)
  : Completion (list ValidationError) :=
  let errors : list ValidationError := [] in
  (* Check if credentials object exists *)
  if negb (ToBoolean credentials)
     || negb (String.eqb (typeof credentials) "object")
  then
    Normal [ {| ValidationError.field := "general";
                ValidationError.message := "Invalid request body." |} ]
  else
    (email <- Get credentials "email" ;;
     password <- Get credentials "password" ;;
     (* Email validation *)
     errors <-
       (if negb (ToBoolean email) then
          Normal (push errors
                    {| ValidationError.field := "email";
                       ValidationError.message := "Email is required." |})
        else
          wellFormed <- RegExpTest EMAIL_REGEX email ;;
          if negb wellFormed then
            Normal (push errors
                      {| ValidationError.field := "email";
                         ValidationError.message := "Invalid email format." |})
          else Normal errors) ;;
     (* Password validation *)
     errors <-
       (if negb (ToBoolean password) then
          Normal (push errors
                    {| ValidationError.field := "password";
                       ValidationError.message := "Password is required." |})
        else
          length <- Get password "length" ;;
          tooShort <- IsLessThan length MIN_PASSWORD_LENGTH ;;
          if tooShort then
            Normal (push errors
                      {| ValidationError.field := "password";
                         ValidationError.message :=
                           "Password must be at least "
                           ++ NumberToString MIN_PASSWORD_LENGTH
                           ++ " characters." |})
          else Normal errors) ;;
     Normal errors)%completion.

Definition sanitizeCredentials (credentials : JsValue)
  : Completion LoginCredentials :=
  (email <- Get credentials "email" ;;
   (* credentials.email?.trim().toLowerCase() *)
   chained <-
     match email with
     | JsUndefined | JsNull => Normal JsUndefined
     | _ => trimmed <- callTrim email ;;
            Normal (JsString (toLowerCase trimmed))
     end ;;
   password <- Get credentials "password" ;;
   Normal {| LoginCredentials.email := logicalOr chained (JsString "");
             LoginCredentials.password := logicalOr password (JsString "") |}
  )%completion.

End WithBuiltins.
End AuthValidation.

(* ================================================================= *)
(** ** [class AuthService]  (src/lib/services/authService.ts) *)

Module AuthService.

Definition VALID_CREDENTIALS_email : string := "test@example.com".
Definition VALID_CREDENTIALS_password : string := "password123".

(** Simulate realistic database query time *)
Definition simulateDatabaseDelay : Async unit := awaitTimeout 10.

Definition authenticateUser (credentials : LoginCredentials)
  : Async AuthResult :=
  ((* Simulate database lookup delay *)
   simulateDatabaseDelay ;;
   let email := LoginCredentials.email credentials in
   let password := LoginCredentials.password credentials in
   if IsStrictlyEqual email VALID_CREDENTIALS_email
      && IsStrictlyEqual password VALID_CREDENTIALS_password
   then
     ret {| AuthResult.success := true;
            AuthResult.message := "Login successful!";
            AuthResult.statusCode := 200;
            AuthResult.data :=
              Some (JsObject
                      [("user",
                        JsObject [("email", email);
                                  ("id", JsString "user-123");
                                  ("role", JsString "user")])]) |}
   else
     ret {| AuthResult.success := false;
            AuthResult.message := "Invalid credentials.";
            AuthResult.statusCode := 401;
            AuthResult.data := None |})%async.

(** Mock session validation; [token] is optional. *)
Definition validateSession (token : option string) : Async bool :=
  ret (match token with
       | Some t => String.eqb t "valid-token"
       | None => false
       end).

End AuthService.

(* ================================================================= *)
(** ** [class ResponseUtils]  (src/lib/utils/responseUtils.ts) *)

Module ResponseUtils.

Definition createSuccessResponse (data : JsValue) (message : option string)
  : Completion Response :=
  NextResponse.json
    {| Body.success := true;
       Body.message :=
         match message with
         | Some m => if String.eqb m "" then "Operation successful" else m
         | None => "Operation successful"
         end;
       Body.errors := None;
       Body.data := Some data |}
    None.

(** [statusCode] defaults to 400. *)
Definition createErrorResponse (message : string) (statusCode : option Z)
  : Completion Response :=
  NextResponse.json
    {| Body.success := false;
       Body.message := message;
       Body.errors := None;
       Body.data := None |}
    (Some (match statusCode with Some s => s | None => 400 end)).

Definition createValidationErrorResponse (errors : list ValidationError)
  : Completion Response :=
  NextResponse.json
    {| Body.success := false;
       Body.message := "Validation failed";
       Body.errors := Some errors;
       Body.data := None |}
    (Some 400).

Definition createAuthResponse (authResult : AuthResult)
  : Completion Response :=
  NextResponse.json
    {| Body.success := AuthResult.success authResult;
       Body.message := AuthResult.message authResult;
       Body.errors := None;
       (* ...(authResult.data && { data: authResult.data }) *)
       Body.data :=
         match AuthResult.data authResult with
         | Some d => if ToBoolean d then Some d else None
         | None => None
         end |}
    (Some (AuthResult.statusCode authResult)).

Definition createServerErrorResponse : Completion Response :=
  NextResponse.json
    {| Body.success := false;
       Body.message := "Internal server error";
       Body.errors := None;
       Body.data := None |}
    (Some 500).

End ResponseUtils.

(* ================================================================= *)
(** ** The handler  (src/app/api/login/route.ts) *)

Section Handler.
Context `{JsBuiltins}.

Definition POST (request : Request) : Async Response :=
  (startTime <- performance_now ;;
   call (console_time "login-request") ;;
   tryCatch
     ((* Parse request body *)
      call (console_time "parse-request") ;;
      body <- liftC (Request.json request) ;;
      call (console_timeEnd "parse-request") ;;
      (* Validate and sanitize credentials *)
      call (console_time "validate-credentials") ;;
      validationErrors <-
        liftC (AuthValidation.validateLoginCredentials body) ;;
      if (0 <? List.length validationErrors)%nat then
        call (console_timeEnd "validate-credentials") ;;
        call (console_timeEnd "login-request") ;;
        t <- performance_now ;;
        call (console_log "Login validation failed in" (t - startTime)) ;;
        liftC (ResponseUtils.createValidationErrorResponse validationErrors)
      else
        sanitizedCredentials <-
          liftC (AuthValidation.sanitizeCredentials body) ;;
        call (console_timeEnd "validate-credentials") ;;
        (* Authenticate user *)
        call (console_time "authenticate-user") ;;
        authResult <- AuthService.authenticateUser sanitizedCredentials ;;
        call (console_timeEnd "authenticate-user") ;;
        (* Log performance metrics *)
        t <- performance_now ;;
        let totalTime := t - startTime in
        call (console_timeEnd "login-request") ;;
        call (console_log "Login request completed in" totalTime) ;;
        liftC (ResponseUtils.createAuthResponse authResult))
     (fun error =>
        call (console_error "Login error:" error) ;;
        call (console_timeEnd "login-request") ;;
        liftC ResponseUtils.createServerErrorResponse))%async.

End Handler.

(* ================================================================= *)
(** ** Shapes of input *)

(** What the guard of [validateLoginCredentials] lets through: an object
    or an array. *)
Definition isStructure (v : JsValue) : bool :=
  ToBoolean v && String.eqb (typeof v) "object".

(** No object inside the value has an own property named [toString]; such
    a property is the one thing that makes [ToString] throw. *)
Fixpoint ordinary (v : JsValue) : bool :=
  match v with
  | JsArray elements => forallb ordinary elements
  | JsObject properties =>
      negb (hasOwnProperty "toString" properties)
      && forallb (fun binding : string * JsValue =>
                    let (_, w) := binding in ordinary w) properties
  | _ => true
  end.

(** The two messages of a field that is missing, and the length message *)
Definition emailRequired : ValidationError :=
  {| ValidationError.field := "email";
     ValidationError.message := "Email is required." |}.

Definition passwordRequired : ValidationError :=
  {| ValidationError.field := "password";
     ValidationError.message := "Password is required." |}.

Definition passwordTooShort : ValidationError :=
  {| ValidationError.field := "password";
     ValidationError.message := "Password must be at least 6 characters." |}.

Definition generalError : ValidationError :=
  {| ValidationError.field := "general";
     ValidationError.message := "Invalid request body." |}.

(** The two field checks of [validateLoginCredentials], each as the
    function from the errors pushed so far to the errors after it;
    [validate_structure] below shows the function is their sequence. *)
Section FieldChecks.
Context `{JsBuiltins}.

Definition checkEmail (email : JsValue) (errors : list ValidationError)
  : Completion (list ValidationError) :=
  (if negb (ToBoolean email) then
     Normal (AuthValidation.push errors emailRequired)
   else
     wellFormed <- RegExpTest AuthValidation.EMAIL_REGEX email ;;
     if negb wellFormed then
       Normal (AuthValidation.push errors
                 {| ValidationError.field := "email";
                    ValidationError.message := "Invalid email format." |})
     else Normal errors)%completion.

Definition checkPassword (password : JsValue) (errors : list ValidationError)
  : Completion (list ValidationError) :=
  (if negb (ToBoolean password) then
     Normal (AuthValidation.push errors passwordRequired)
   else
     length <- Get password "length" ;;
     tooShort <- IsLessThan length AuthValidation.MIN_PASSWORD_LENGTH ;;
     if tooShort then
       Normal (AuthValidation.push errors
                 {| ValidationError.field := "password";
                    ValidationError.message :=
                      "Password must be at least "
                      ++ NumberToString AuthValidation.MIN_PASSWORD_LENGTH
                      ++ " characters." |})
     else Normal errors)%completion.

End FieldChecks.

(** The conversions the two checks perform, and whether they return: the
    email check converts a truthy email to a string for the pattern, the
    password check converts the [length] of a truthy password for [<]. *)
Section Conversions.
Context `{JsBuiltins}.

Definition converts (v : JsValue) : bool :=
  match ToString v with
  | Normal _ => true
  | Throw _ => false
  end.

Definition emailCheckReturns (email : JsValue) : bool :=
  negb (ToBoolean email) || converts email.

Definition passwordCheckReturns (password : JsValue) : bool :=
  negb (ToBoolean password)
  || match Get password "length" with
     | Normal length => converts length
     | Throw _ => false
     end.

End Conversions.

(** Some error of the list is about the given field. *)
Definition mentions (name : string) (errors : list ValidationError) : Prop :=
  exists e, In e errors /\ ValidationError.field e = name.

(** The reference pair of [AuthService] *)
Definition isReferencePair (c : LoginCredentials) : Prop :=
  LoginCredentials.email c = JsString "test@example.com"
  /\ LoginCredentials.password c = JsString "password123".

Definition loginSuccessful (email : JsValue) : AuthResult :=
  {| AuthResult.success := true;
     AuthResult.message := "Login successful!";
     AuthResult.statusCode := 200;
     AuthResult.data :=
       Some (JsObject [("user", JsObject [("email", email);
                                          ("id", JsString "user-123");
                                          ("role", JsString "user")])]) |}.

Definition invalidCredentials : AuthResult :=
  {| AuthResult.success := false;
     AuthResult.message := "Invalid credentials.";
     AuthResult.statusCode := 401;
     AuthResult.data := None |}.

(** What [authenticateUser] decides for a record *)
Definition verdict (c : LoginCredentials) : AuthResult :=
  if IsStrictlyEqual (LoginCredentials.email c)
       AuthService.VALID_CREDENTIALS_email
     && IsStrictlyEqual (LoginCredentials.password c)
          AuthService.VALID_CREDENTIALS_password
  then loginSuccessful (LoginCredentials.email c)
  else invalidCredentials.

(** The response to a list of validation errors *)
Definition validationFailed (errors : list ValidationError) : Response :=
  {| Response.status := 400;
     Response.body := {| Body.success := false;
                         Body.message := "Validation failed";
                         Body.errors := Some errors;
                         Body.data := None |} |}.

Definition internalServerError : Response :=
  {| Response.status := 500;
     Response.body := {| Body.success := false;
                         Body.message := "Internal server error";
                         Body.errors := None;
                         Body.data := None |} |}.

(** The [try] block and the [catch] block of [POST], named so that
    statements can speak of an exception thrown inside the first;
    [POST_blocks] below shows the handler is made of them. *)
Section Blocks.
Context `{JsBuiltins}.

Definition tryBlock (startTime : Z) (request : Request) : Async Response :=
  (call (console_time "parse-request") ;;
   body <- liftC (Request.json request) ;;
   call (console_timeEnd "parse-request") ;;
   call (console_time "validate-credentials") ;;
   validationErrors <-
     liftC (AuthValidation.validateLoginCredentials body) ;;
   if (0 <? List.length validationErrors)%nat then
     call (console_timeEnd "validate-credentials") ;;
     call (console_timeEnd "login-request") ;;
     t <- performance_now ;;
     call (console_log "Login validation failed in" (t - startTime)) ;;
     liftC (ResponseUtils.createValidationErrorResponse validationErrors)
   else
     sanitizedCredentials <-
       liftC (AuthValidation.sanitizeCredentials body) ;;
     call (console_timeEnd "validate-credentials") ;;
     call (console_time "authenticate-user") ;;
     authResult <- AuthService.authenticateUser sanitizedCredentials ;;
     call (console_timeEnd "authenticate-user") ;;
     t <- performance_now ;;
     let totalTime := t - startTime in
     call (console_timeEnd "login-request") ;;
     call (console_log "Login request completed in" totalTime) ;;
     liftC (ResponseUtils.createAuthResponse authResult))%async.

Definition catchBlock (error : JsError) : Async Response :=
  (call (console_error "Login error:" error) ;;
   call (console_timeEnd "login-request") ;;
   liftC ResponseUtils.createServerErrorResponse)%async.

End Blocks.

(** The world in which the [try] block of [POST] is entered *)
Definition entered (w : World) : World :=
  snd (call (console_time "login-request") w).

(** The email of a sanitized record is a string that trimming and
    lower-casing leave alone. *)
Definition normalised (v : JsValue) : Prop :=
  exists s, v = JsString s /\ toLowerCase (trim s) = s.

(** A field of the declared type [string], or missing *)
Definition stringOrMissing (v : JsValue) : bool :=
  match v with
  | JsString _ | JsUndefined | JsNull => true
  | _ => false
  end.

(** An instance of the run-time conversions for running the functions on
    concrete inputs: it reads unsigned decimal numerals and prints through
    the numerator.  It only stands in for the real conversions; no
    statement depends on it. *)
Definition sampleBuiltins : JsBuiltins :=
  {| FiniteToString := fun q => NilZero.string_of_int (Z.to_int (Qnum q));
     StringToNumber := fun s =>
       match digitsValue s 0 with
       | Some n => numberOfNat n
       | None => NaN
       end |}.

Definition initialWorld : World :=
  {| now := 0; lateness := []; console := [] |}.

(** Structural induction that reaches the elements of an array and the
    property values of an object *)
Section NestedInduction.
Variable P : JsValue -> Prop.
Hypothesis P_undefined : P JsUndefined.
Hypothesis P_null : P JsNull.
Hypothesis P_boolean : forall b, P (JsBoolean b).
Hypothesis P_numeric : forall n, P (JsNumeric n).
Hypothesis P_string : forall s, P (JsString s).
Hypothesis P_array : forall elements, Forall P elements -> P (JsArray elements).
Hypothesis P_object :
  forall properties,
    Forall (fun binding : string * JsValue => P (snd binding)) properties ->
    P (JsObject properties).

Fixpoint JsValue_nested_ind (v : JsValue) : P v :=
  match v with
  | JsUndefined => P_undefined
  | JsNull => P_null
  | JsBoolean b => P_boolean b
  | JsNumeric n => P_numeric n
  | JsString s => P_string s
  | JsArray elements =>
      P_array elements
        ((fix all (l : list JsValue) : Forall P l :=
            match l with
            | [] => Forall_nil P
            | x :: rest => Forall_cons x (JsValue_nested_ind x) (all rest)
            end) elements)
  | JsObject properties =>
      P_object properties
        ((fix all (l : list (string * JsValue))
            : Forall (fun binding : string * JsValue => P (snd binding)) l :=
            match l with
            | [] => Forall_nil _
            | (key, w) :: rest =>
                Forall_cons (key, w) (JsValue_nested_ind w) (all rest)
            end) properties)
  end.

End NestedInduction.

(* ================================================================= *)
(** ** Facts about strings *)

Section StringFacts.

Lemma toLowerCaseUnit_idempotent (c : ascii) :
  toLowerCaseUnit (toLowerCaseUnit c) = toLowerCaseUnit c.
Proof. destruct c as [[] [] [] [] [] [] [] []]; reflexivity. Qed.

Lemma isWhiteSpace_toLowerCaseUnit (c : ascii) :
  isWhiteSpace (toLowerCaseUnit c) = isWhiteSpace c.
Proof. destruct c as [[] [] [] [] [] [] [] []]; reflexivity. Qed.

Lemma toLowerCase_idempotent (s : string) :
  toLowerCase (toLowerCase s) = toLowerCase s.
Proof.
  induction s as [|c rest IH]; simpl.
  - reflexivity.
  - now rewrite toLowerCaseUnit_idempotent, IH.
Qed.

Lemma trimStart_toLowerCase (s : string) :
  trimStart (toLowerCase s) = toLowerCase (trimStart s).
Proof.
  induction s as [|c rest IH]; simpl; trivial.
  rewrite isWhiteSpace_toLowerCaseUnit.
  destruct (isWhiteSpace c); [exact IH | reflexivity].
Qed.

Lemma trimEnd_toLowerCase (s : string) :
  trimEnd (toLowerCase s) = toLowerCase (trimEnd s).
Proof.
  induction s as [|c rest IH]; simpl; trivial.
  rewrite IH, isWhiteSpace_toLowerCaseUnit.
  destruct (trimEnd rest); simpl.
  - destruct (isWhiteSpace c); reflexivity.
  - reflexivity.
Qed.

Lemma trim_toLowerCase (s : string) :
  trim (toLowerCase s) = toLowerCase (trim s).
Proof.
  unfold trim. now rewrite trimStart_toLowerCase, trimEnd_toLowerCase.
Qed.

Lemma trimStart_startsClean (s : string) : startsClean (trimStart s) = true.
Proof.
  induction s as [|c rest IH]; simpl; trivial.
  case_eq (isWhiteSpace c); intro Hc; [exact IH | simpl; now rewrite Hc].
Qed.

Lemma trimStart_fixes_clean (s : string) :
  startsClean s = true -> trimStart s = s.
Proof.
  destruct s as [|c rest]; simpl; trivial.
  destruct (isWhiteSpace c); [discriminate | reflexivity].
Qed.

Lemma trimEnd_keeps_clean (s : string) :
  startsClean s = true -> startsClean (trimEnd s) = true.
Proof.
  destruct s as [|c rest]; simpl; trivial.
  destruct (trimEnd rest); simpl; trivial.
  case_eq (isWhiteSpace c); intros Hc; [discriminate | simpl; now rewrite Hc].
Qed.

Lemma trimEnd_idempotent (s : string) : trimEnd (trimEnd s) = trimEnd s.
Proof.
  induction s as [|c rest IH]; simpl; trivial.
  destruct (trimEnd rest) as [|d kept] eqn:E.
  - case_eq (isWhiteSpace c); intro Hc; simpl; trivial. now rewrite Hc.
  - change (trimEnd (String c (String d kept))) with
      (match trimEnd (String d kept) with
       | EmptyString =>
           if isWhiteSpace c then EmptyString else String c EmptyString
       | k => String c k
       end).
    now rewrite IH.
Qed.

Lemma trim_idempotent (s : string) : trim (trim s) = trim s.
Proof.
  unfold trim.
  rewrite (trimStart_fixes_clean (trimEnd (trimStart s))).
  - apply trimEnd_idempotent.
  - apply trimEnd_keeps_clean, trimStart_startsClean.
Qed.

(** Trimming and lower-casing a second time changes nothing. *)
Lemma normalise_idempotent (s : string) :
  toLowerCase (trim (toLowerCase (trim s))) = toLowerCase (trim s).
Proof.
  now rewrite trim_toLowerCase, trim_idempotent, toLowerCase_idempotent.
Qed.

End StringFacts.

(* ================================================================= *)
(** ** Facts about matching *)

Lemma matchesFrom_spec (pattern : RegExp) (input : string) :
  matchesFrom pattern input = true <-> Matches pattern input.
Proof.
  revert input. induction pattern as [|[set|set] rest IH]; intro input.
  - destruct input; simpl; split; try discriminate;
      [constructor | reflexivity | inversion 1].
  - destruct input as [|c tail]; simpl.
    + split; [discriminate | inversion 1].
    + rewrite andb_true_iff, IH. split.
      * intros [Hc Htail]. now constructor.
      * inversion 1; subst. now split.
  - induction input as [|c tail IHinput].
    + simpl. split; [discriminate | inversion 1].
    + change (matchesFrom (OneOrMore set :: rest) (String c tail))
        with (setMatches set c
              && (matchesFrom (OneOrMore set :: rest) tail
                  || matchesFrom rest tail)).
      rewrite andb_true_iff, orb_true_iff, IH, IHinput. split.
      * intros [Hc [Hmore|Hlast]];
          [now apply Matches_more | now apply Matches_last].
      * inversion 1; subst; auto.
Qed.

(* ================================================================= *)
(** ** Facts about the run time *)

Lemma mapC_returns {A B : Type} (f : A -> Completion B) (l : list A) :
  Forall (fun x => exists y, f x = Normal y) l ->
  exists ys, mapC f l = Normal ys.
Proof.
  induction 1 as [|x rest [y Hy] _ [ys Hys]]; simpl.
  - eauto.
  - rewrite Hy, Hys. simpl. eauto.
Qed.

Section RuntimeFacts.
Context `{JsBuiltins}.

Lemma lookup_ordinary (name : string) (properties : list (string * JsValue))
      (w : JsValue) :
  forallb (fun binding : string * JsValue =>
             let (_, x) := binding in ordinary x) properties = true ->
  lookup name properties = Some w ->
  ordinary w = true.
Proof.
  induction properties as [|[key x] rest IH]; simpl; [discriminate|].
  intros Hall Hfind. apply andb_true_iff in Hall as [Hx Hrest].
  destruct (lookup name rest) as [later|].
  - apply IH; [assumption | congruence].
  - destruct (String.eqb key name); [congruence | discriminate].
Qed.

Lemma nth_ordinary (i : nat) (elements : list JsValue) :
  forallb ordinary elements = true ->
  ordinary (nth i elements JsUndefined) = true.
Proof.
  revert i. induction elements as [|x rest IH]; intros [|i] Hall; simpl; trivial;
    simpl in Hall; apply andb_true_iff in Hall as [Hx Hrest]; auto.
Qed.

(** What a property read of an ordinary value gives is ordinary. *)
Lemma Get_ordinary (v w : JsValue) (name : string) :
  ordinary v = true -> Get v name = Normal w -> ordinary w = true.
Proof.
  destruct v as [| |b|n|s|elements|properties]; simpl; intros Hv Hget;
    try discriminate; try (injection Hget as <-; reflexivity).
  - destruct (String.eqb name "length"); [injection Hget as <-; reflexivity|].
    destruct (arrayIndex name) as [i|]; [|injection Hget as <-; reflexivity].
    destruct (String.get i s); injection Hget as <-; reflexivity.
  - destruct (String.eqb name "length"); [injection Hget as <-; reflexivity|].
    destruct (arrayIndex name) as [i|]; injection Hget as <-;
      [now apply nth_ordinary | reflexivity].
  - apply andb_true_iff in Hv as [_ Hall].
    destruct (lookup name properties) as [x|] eqn:Hfind;
      injection Hget as <-; [|reflexivity].
    eapply lookup_ordinary; eassumption.
Qed.

(** A structure answers every property read. *)
Lemma Get_structure (v : JsValue) (name : string) :
  isStructure v = true -> exists w, Get v name = Normal w.
Proof.
  unfold isStructure.
  destruct v as [| |b|n|s|elements|properties]; simpl; intro Hv;
    try discriminate.
  - destruct b; discriminate.
  - rewrite andb_false_r in Hv; discriminate.
  - rewrite andb_false_r in Hv; discriminate.
  - destruct (String.eqb name "length"); [eauto|].
    destruct (arrayIndex name); eauto.
  - destruct (lookup name properties); eauto.
Qed.

(** [ToString] returns on every ordinary value. *)
Lemma ToString_ordinary (v : JsValue) :
  ordinary v = true -> exists s, ToString v = Normal s.
Proof.
  induction v as [| |b|n|s|elements IH|properties IH]
    using JsValue_nested_ind; intro Hv; simpl; eauto.
  - (* array *)
    simpl in Hv.
    destruct (mapC_returns
                (fun x => match x with
                          | JsUndefined | JsNull => Normal ""
                          | _ => ToString x
                          end) elements) as [pieces ->]; [|simpl; eauto].
    apply Forall_forall. intros x Hin.
    assert (Hx : ordinary x = true)
      by (rewrite forallb_forall in Hv; auto).
    rewrite Forall_forall in IH.
    destruct x; eauto.
  - (* object *)
    simpl in Hv. apply andb_true_iff in Hv as [Hown _].
    apply negb_true_iff in Hown. rewrite Hown. eauto.
Qed.

Lemma IsLessThan_ordinary (v : JsValue) (n : JsNumber) :
  ordinary v = true -> exists b, IsLessThan v n = Normal b.
Proof.
  intro Hv. destruct (ToString_ordinary v Hv) as [s Hs].
  unfold IsLessThan, ToNumber, ToPrimitive.
  destruct v; try (simpl; eauto; fail); rewrite Hs; simpl; eauto.
Qed.

Lemma RegExpTest_ordinary (regexp : RegExp) (v : JsValue) :
  ordinary v = true -> exists b, RegExpTest regexp v = Normal b.
Proof.
  intro Hv. unfold RegExpTest.
  destruct (ToString_ordinary v Hv) as [s ->]. simpl. eauto.
Qed.

End RuntimeFacts.

(* ================================================================= *)
(** ** Validation *)

Section ValidationFacts.
Context `{JsBuiltins}.

Lemma validate_structure (credentials email password : JsValue) :
  isStructure credentials = true ->
  Get credentials "email" = Normal email ->
  Get credentials "password" = Normal password ->
  AuthValidation.validateLoginCredentials credentials
  = (errors <- checkEmail email [] ;;
     errors <- checkPassword password errors ;;
     Normal errors)%completion.
Proof.
  unfold isStructure, AuthValidation.validateLoginCredentials.
  intros Hguard -> ->.
  apply andb_true_iff in Hguard as [-> ->]. reflexivity.
Qed.

Lemma Get_truthy (v : JsValue) (name : string) :
  ToBoolean v = true -> exists w, Get v name = Normal w.
Proof.
  destruct v; simpl; try discriminate; intros _; eauto.
  - destruct (String.eqb name "length"); [eauto|].
    destruct (arrayIndex name) as [i|]; [destruct (String.get i s)|]; eauto.
  - destruct (String.eqb name "length"); [eauto|].
    destruct (arrayIndex name); eauto.
  - destruct (lookup name properties); eauto.
Qed.

(** A value that is not truthy is reported as required, whatever it is. *)
Lemma checkEmail_missing (email : JsValue) (errors : list ValidationError) :
  ToBoolean email = false ->
  checkEmail email errors = Normal (errors ++ [emailRequired]).
Proof. unfold checkEmail. now intros ->. Qed.

(** Whatever the email check adds is about the email. *)
Lemma checkEmail_fields (email : JsValue) (errors after : list ValidationError) :
  checkEmail email errors = Normal after ->
  exists extra,
    after = errors ++ extra
    /\ forall e, In e extra -> ValidationError.field e = "email".
Proof.
  unfold checkEmail, AuthValidation.push.
  destruct (ToBoolean email); cbn [negb].
  - destruct (RegExpTest AuthValidation.EMAIL_REGEX email) as [[|]|];
      cbn; intro Hafter; try discriminate; injection Hafter as <-.
    + exists []. rewrite app_nil_r. split; [reflexivity | intros e []].
    + eexists. split; [reflexivity|]. intros e [<-|[]]. reflexivity.
  - intro Hafter. injection Hafter as <-.
    eexists. split; [reflexivity|]. intros e [<-|[]]. reflexivity.
Qed.

Lemma checkEmail_returns (email : JsValue) (errors : list ValidationError) :
  ordinary email = true ->
  exists extra,
    checkEmail email errors = Normal (errors ++ extra)
    /\ forall e, In e extra -> ValidationError.field e = "email".
Proof.
  intro Hord. unfold checkEmail, AuthValidation.push.
  destruct (ToBoolean email); simpl.
  - destruct (RegExpTest_ordinary AuthValidation.EMAIL_REGEX email Hord)
      as [[|] ->]; simpl.
    + exists []. rewrite app_nil_r. split; [reflexivity | intros e []].
    + eexists. split; [reflexivity|].
      intros e [<-|[]]. reflexivity.
  - exists [emailRequired]. split; [reflexivity|].
    intros e [<-|[]]. reflexivity.
Qed.

Lemma checkPassword_returns (password : JsValue)
      (errors : list ValidationError) :
  ordinary password = true ->
  exists extra,
    checkPassword password errors = Normal (errors ++ extra)
    /\ forall e, In e extra -> ValidationError.field e = "password".
Proof.
  intro Hord. unfold checkPassword, AuthValidation.push.
  destruct (ToBoolean password) eqn:Htruthy; simpl.
  - destruct (Get_truthy password "length" Htruthy) as [len Hlen].
    rewrite Hlen. simpl.
    destruct (IsLessThan_ordinary len AuthValidation.MIN_PASSWORD_LENGTH
                (Get_ordinary _ _ _ Hord Hlen)) as [[|] ->]; simpl.
    + eexists. split; [reflexivity|].
      intros e [<-|[]]. reflexivity.
    + exists []. rewrite app_nil_r. split; [reflexivity | intros e []].
  - exists [passwordRequired]. split; [reflexivity|].
    intros e [<-|[]]. reflexivity.
Qed.

Lemma lessThan_six (n : nat) :
  numberLessThan (numberOfNat n) AuthValidation.MIN_PASSWORD_LENGTH
  = (n <? 6)%nat.
Proof.
  unfold AuthValidation.MIN_PASSWORD_LENGTH, numberOfNat, numberOfZ,
    numberLessThan, Qle_bool, inject_Z.
  cbn [Qnum Qden]. rewrite Z.mul_1_r.
  destruct (Nat.ltb_spec n 6) as [Hlt|Hge];
    [apply negb_true_iff, Z.leb_gt | apply negb_false_iff, Z.leb_le]; lia.
Qed.

(** The check of a password that is a string, by its length *)
Lemma checkPassword_string (p : string) (errors : list ValidationError) :
  checkPassword (JsString p) errors
  = Normal (errors ++
              if String.eqb p "" then [passwordRequired]
              else if (String.length p <? 6)%nat then [passwordTooShort]
                   else []).
Proof.
  unfold checkPassword. cbn [ToBoolean].
  destruct (String.eqb p ""); cbn [negb]; [reflexivity|].
  change (Get (JsString p) "length")
    with (Normal (JsNumeric (numberOfNat (String.length p)))).
  unfold IsLessThan, ToNumber, ToPrimitive. cbn [bindC].
  rewrite lessThan_six.
  destruct (String.length p <? 6)%nat; [reflexivity | now rewrite app_nil_r].
Qed.

(** A number has no [length]: [undefined < 6] is false and nothing is
    pushed. *)
Lemma checkPassword_number (n : JsNumber) (errors : list ValidationError) :
  ToBoolean (JsNumeric n) = true ->
  checkPassword (JsNumeric n) errors = Normal errors.
Proof. unfold checkPassword. intros ->. reflexivity. Qed.

(** Validation returns a list on every ordinary input. *)
Lemma validate_returns (credentials : JsValue) :
  ordinary credentials = true ->
  exists errors,
    AuthValidation.validateLoginCredentials credentials = Normal errors.
Proof.
  intro Hord. destruct (isStructure credentials) eqn:Hs.
  - destruct (Get_structure credentials "email" Hs) as [email He].
    destruct (Get_structure credentials "password" Hs) as [password Hp].
    rewrite (validate_structure _ _ _ Hs He Hp).
    destruct (checkEmail_returns email [] (Get_ordinary _ _ _ Hord He))
      as [a [-> _]].
    simpl.
    destruct (checkPassword_returns password a (Get_ordinary _ _ _ Hord Hp))
      as [b [-> _]].
    simpl. eauto.
  - unfold AuthValidation.validateLoginCredentials.
    unfold isStructure in Hs.
    destruct (ToBoolean credentials); simpl in *; [rewrite Hs|]; simpl; eauto.
Qed.

End ValidationFacts.

(** Only an object answers a read of [password], or of [email], with
    something other than [undefined]. *)
Lemma field_read_structure (v w : JsValue) (name : string) :
  name = "email" \/ name = "password" ->
  Get v name = Normal w ->
  w <> JsUndefined ->
  isStructure v = true.
Proof.
  intros Hname Hget Hw.
  destruct v as [| |b|n|s|elements|properties];
    try reflexivity; try discriminate;
    destruct Hname as [-> | ->]; cbn in Hget;
    injection Hget as <-; now elim Hw.
Qed.

Lemma mapC_throws {A B : Type} (f : A -> Completion B) (l : list A)
      (e : JsError) :
  mapC f l = Throw e -> exists x, In x l /\ f x = Throw e.
Proof.
  induction l as [|x rest IH]; simpl; [discriminate|].
  destruct (f x) as [y|thrown] eqn:Hx; simpl.
  - destruct (mapC f rest) as [ys|thrown]; simpl; [discriminate|].
    intro Hthrow. destruct (IH Hthrow) as [x' [Hin Hx']]. eauto.
  - intro Hthrow. injection Hthrow as ->. eauto.
Qed.

Section ConversionFacts.
Context `{JsBuiltins}.

(** A conversion to a string throws nothing but a [TypeError]. *)
Lemma ToString_TypeError (v : JsValue) (e : JsError) :
  ToString v = Throw e -> e = TypeError.
Proof.
  revert e.
  induction v as [| |b|n|s|elements IH|properties IH]
    using JsValue_nested_ind; intro e; simpl; try discriminate.
  - destruct (mapC _ elements) as [pieces|thrown] eqn:Hpieces;
      simpl; [discriminate|].
    intro Hthrow. injection Hthrow as ->.
    apply mapC_throws in Hpieces as [x [Hin Hx]].
    rewrite Forall_forall in IH.
    destruct x; try discriminate; now apply (IH _ Hin).
  - destruct (hasOwnProperty "toString" properties); [|discriminate].
    now injection 1.
Qed.

Lemma ordinary_converts (v : JsValue) :
  ordinary v = true -> converts v = true.
Proof.
  intro Hv. unfold converts.
  now destruct (ToString_ordinary v Hv) as [s ->].
Qed.

Lemma not_converts_throws (v : JsValue) :
  converts v = false -> ToString v = Throw TypeError.
Proof.
  unfold converts. destruct (ToString v) as [s|e] eqn:Hs; [discriminate|].
  intros _. now rewrite (ToString_TypeError v e Hs).
Qed.

Lemma IsLessThan_converts (v : JsValue) (n : JsNumber) :
  converts v = true -> exists b, IsLessThan v n = Normal b.
Proof.
  unfold converts. destruct (ToString v) as [s|e] eqn:Hs; [|discriminate].
  intros _. unfold IsLessThan, ToNumber, ToPrimitive.
  destruct v; try (simpl; eauto; fail); rewrite Hs; simpl; eauto.
Qed.

Lemma IsLessThan_throws (v : JsValue) (n : JsNumber) :
  converts v = false -> IsLessThan v n = Throw TypeError.
Proof.
  intro Hv. pose proof (not_converts_throws v Hv) as Hs.
  unfold IsLessThan, ToNumber, ToPrimitive.
  destruct v; try discriminate; now rewrite Hs.
Qed.

(** The email check returns exactly when its conversion does. *)
Lemma checkEmail_converts (email : JsValue) (errors : list ValidationError) :
  emailCheckReturns email = true ->
  exists extra,
    checkEmail email errors = Normal (errors ++ extra)
    /\ forall e, In e extra -> ValidationError.field e = "email".
Proof.
  unfold emailCheckReturns, converts, checkEmail, RegExpTest,
    AuthValidation.push.
  destruct (ToBoolean email); cbn [negb orb].
  - destruct (ToString email) as [s|e]; [|discriminate]. intros _.
    cbn [bindC].
    destruct (matchesFrom AuthValidation.EMAIL_REGEX s); cbn [negb].
    + exists []. rewrite app_nil_r. split; [reflexivity | intros e []].
    + eexists. split; [reflexivity|]. intros e [<-|[]]. reflexivity.
  - intros _. eexists. split; [reflexivity|].
    intros e [<-|[]]. reflexivity.
Qed.

Lemma checkEmail_throws (email : JsValue) (errors : list ValidationError) :
  emailCheckReturns email = false ->
  checkEmail email errors = Throw TypeError.
Proof.
  unfold emailCheckReturns, checkEmail, RegExpTest.
  destruct (ToBoolean email); cbn [negb orb]; [|discriminate].
  intro Hv. now rewrite (not_converts_throws email Hv).
Qed.

(** The password check returns exactly when its conversion does. *)
Lemma checkPassword_converts (password : JsValue)
      (errors : list ValidationError) :
  passwordCheckReturns password = true ->
  exists extra,
    checkPassword password errors = Normal (errors ++ extra)
    /\ forall e, In e extra -> ValidationError.field e = "password".
Proof.
  unfold passwordCheckReturns, checkPassword, AuthValidation.push.
  destruct (ToBoolean password); cbn [negb orb].
  - destruct (Get password "length") as [len|]; [|discriminate].
    intro Hlen. cbn [bindC].
    destruct (IsLessThan_converts len AuthValidation.MIN_PASSWORD_LENGTH Hlen)
      as [[|] ->]; cbn [bindC].
    + eexists. split; [reflexivity|]. intros e [<-|[]]. reflexivity.
    + exists []. rewrite app_nil_r. split; [reflexivity | intros e []].
  - intros _. eexists. split; [reflexivity|].
    intros e [<-|[]]. reflexivity.
Qed.

Lemma checkPassword_throws (password : JsValue)
      (errors : list ValidationError) :
  passwordCheckReturns password = false ->
  checkPassword password errors = Throw TypeError.
Proof.
  unfold passwordCheckReturns, checkPassword.
  destruct (ToBoolean password) eqn:Htruthy; cbn [negb orb]; [|discriminate].
  destruct (Get_truthy password "length" Htruthy) as [len ->].
  intro Hlen. cbn [bindC].
  now rewrite (IsLessThan_throws len _ Hlen).
Qed.

(** The password check keeps the errors it is given. *)
Lemma checkPassword_keeps (password : JsValue)
      (errors after : list ValidationError) :
  checkPassword password errors = Normal after ->
  exists extra, after = errors ++ extra.
Proof.
  destruct (passwordCheckReturns password) eqn:Hreturns.
  - destruct (checkPassword_converts password errors Hreturns)
      as [extra [-> _]].
    intro Hafter. injection Hafter as <-. eauto.
  - now rewrite (checkPassword_throws password errors Hreturns).
Qed.

(** An ordinary field is one whose check returns. *)
Lemma ordinary_emailCheckReturns (email : JsValue) :
  ordinary email = true -> emailCheckReturns email = true.
Proof.
  intro Hv. unfold emailCheckReturns.
  rewrite (ordinary_converts email Hv). apply orb_true_r.
Qed.

Lemma ordinary_passwordCheckReturns (password : JsValue) :
  ordinary password = true -> passwordCheckReturns password = true.
Proof.
  intro Hv. unfold passwordCheckReturns.
  destruct (ToBoolean password) eqn:Htruthy; [|reflexivity].
  destruct (Get_truthy password "length" Htruthy) as [len Hlen].
  rewrite Hlen, (ordinary_converts len (Get_ordinary _ _ _ Hv Hlen)).
  reflexivity.
Qed.

End ConversionFacts.

Section ValidationClaims.
Context `{JsBuiltins}.

(** C4.  An input that is not a well-formed structure -- [null],
    [undefined], or a value whose [typeof] is not ["object"] -- is answered
    with exactly one error, the one with field ["general"]; the field
    checks are not run, so no error about [email] or [password] appears. *)
Theorem validate_not_a_structure (credentials : JsValue) :
  credentials = JsNull \/ credentials = JsUndefined
  \/ typeof credentials <> "object" ->
  AuthValidation.validateLoginCredentials credentials = Normal [generalError]
  /\ ~ mentions "email" [generalError]
  /\ ~ mentions "password" [generalError].
Proof.
  intro Hshape. split.
  - unfold AuthValidation.validateLoginCredentials.
    destruct credentials as [| |b|n|s|elements|properties];
      try reflexivity.
    + now destruct b.
    + cbn [typeof String.eqb]. simpl. now rewrite orb_true_r.
    + cbn [typeof]. simpl. now rewrite orb_true_r.
    + destruct Hshape as [Hnull|[Hundef|Htype]];
        [discriminate | discriminate | now elim Htype].
    + destruct Hshape as [Hnull|[Hundef|Htype]];
        [discriminate | discriminate | now elim Htype].
  - split; intros [e [[<-|[]] Hfield]]; discriminate.
Qed.

(** C5, as amended.  For every input from which the [email] field is
    absent -- a structure, the other inputs being those of C4 --
    validation yields an error whose field is ["email"] whenever it
    returns: the list begins with "Email is required."  It returns
    exactly when the password check does, that is, unless the password is
    truthy and converting its [length] for the comparison throws; then
    validation throws a [TypeError] and yields no list. *)
Theorem validate_missing_email (credentials password : JsValue) :
  isStructure credentials = true ->
  Get credentials "email" = Normal JsUndefined ->
  Get credentials "password" = Normal password ->
  (passwordCheckReturns password = true ->
   exists rest,
     AuthValidation.validateLoginCredentials credentials
     = Normal (emailRequired :: rest)
     /\ mentions "email" (emailRequired :: rest))
  /\ (forall errors,
        AuthValidation.validateLoginCredentials credentials = Normal errors ->
        exists rest, errors = emailRequired :: rest)
  /\ (passwordCheckReturns password = false ->
      AuthValidation.validateLoginCredentials credentials = Throw TypeError).
Proof.
  intros Hs He Hp.
  rewrite (validate_structure _ _ _ Hs He Hp).
  rewrite checkEmail_missing by reflexivity. cbn [bindC app].
  split; [|split].
  - intro Hreturns.
    destruct (checkPassword_converts password [emailRequired] Hreturns)
      as [extra [-> _]].
    exists extra. split; [reflexivity|].
    exists emailRequired. split; [now left | reflexivity].
  - intros errors.
    destruct (checkPassword password [emailRequired]) as [after|] eqn:Hafter;
      [|discriminate].
    destruct (checkPassword_keeps _ _ _ Hafter) as [extra ->].
    cbn [bindC]. intro Herrors. injection Herrors as <-. now exists extra.
  - intro Hthrows.
    now rewrite (checkPassword_throws password [emailRequired] Hthrows).
Qed.

(** C6, as amended.  For every input whose password is a string shorter
    than 6 characters, validation yields an error with field ["password"]
    whenever it returns; for every input whose password has exactly 6
    characters it never yields a password error, the length error
    included.  It returns exactly when the email check does, that is,
    unless the email is truthy and converting it to a string for the
    pattern throws; then validation throws a [TypeError] before the
    password is looked at. *)
Theorem validate_password_length (credentials email : JsValue) (p : string) :
  Get credentials "email" = Normal email ->
  Get credentials "password" = Normal (JsString p) ->
  ((String.length p < 6)%nat ->
   (emailCheckReturns email = true ->
    exists errors,
      AuthValidation.validateLoginCredentials credentials = Normal errors
      /\ mentions "password" errors)
   /\ (forall errors,
         AuthValidation.validateLoginCredentials credentials = Normal errors ->
         mentions "password" errors))
  /\ (String.length p = 6%nat ->
      (forall errors,
         AuthValidation.validateLoginCredentials credentials = Normal errors ->
         ~ mentions "password" errors /\ ~ In passwordTooShort errors)
      /\ (emailCheckReturns email = true ->
          exists errors,
            AuthValidation.validateLoginCredentials credentials
            = Normal errors))
  /\ (emailCheckReturns email = false ->
      AuthValidation.validateLoginCredentials credentials = Throw TypeError).
Proof.
  intros He Hp.
  assert (Hs : isStructure credentials = true).
  { eapply field_read_structure; [right; reflexivity | exact Hp | discriminate]. }
  rewrite (validate_structure _ _ _ Hs He Hp).
  split; [|split].
  - intro Hshort. apply Nat.ltb_lt in Hshort.
    assert (Hpushed :
              forall a, mentions "password"
                          (a ++ (if String.eqb p "" then [passwordRequired]
                                 else if (String.length p <? 6)%nat
                                      then [passwordTooShort] else []))).
    { intro a. rewrite Hshort.
      destruct (String.eqb p "");
        [exists passwordRequired | exists passwordTooShort];
        (split; [apply in_or_app; right; now left | reflexivity]). }
    split.
    + intro Hreturns.
      destruct (checkEmail_converts email [] Hreturns) as [a [-> _]].
      cbn [bindC app]. rewrite checkPassword_string. cbn [bindC].
      eexists. split; [reflexivity | apply Hpushed].
    + intros errors.
      destruct (checkEmail email []) as [a|]; [|discriminate].
      cbn [bindC]. rewrite checkPassword_string. cbn [bindC].
      intro Herrors. injection Herrors as <-. apply Hpushed.
  - intro Hsix.
    assert (Hnonempty : String.eqb p "" = false).
    { destruct p; [discriminate | reflexivity]. }
    split.
    + intros errors.
      destruct (checkEmail email []) as [a|] eqn:Hemail; [|discriminate].
      destruct (checkEmail_fields _ _ _ Hemail) as [extra [-> Hextra]].
      cbn [bindC app]. rewrite checkPassword_string.
      rewrite Hnonempty, Hsix. cbn [Nat.ltb Nat.leb bindC].
      rewrite app_nil_r. intro Herrors. injection Herrors as <-.
      split.
      * intros [e [Hin Hfield]]. apply Hextra in Hin. congruence.
      * intro Hin. apply Hextra in Hin. discriminate.
    + intro Hreturns.
      destruct (checkEmail_converts email [] Hreturns) as [a [-> _]].
      cbn [bindC app]. rewrite checkPassword_string. cbn [bindC]. eauto.
  - intro Hthrows. now rewrite (checkEmail_throws email [] Hthrows).
Qed.

(** C10.  The length check applies only to a value that has a numeric
    [length]: a credential record whose password is the number 123 passes
    validation with no error at all -- its [length] is [undefined], and
    [undefined < 6] is false -- and in general a truthy number as password
    draws no ["password"] error. *)
Theorem validate_numeric_password :
  AuthValidation.validateLoginCredentials
    (JsObject [("email", JsString "test@example.com");
               ("password", JsNumeric (numberOfZ 123))])
  = Normal []
  /\ Get (JsNumeric (numberOfZ 123)) "length" = Normal JsUndefined
  /\ IsLessThan JsUndefined AuthValidation.MIN_PASSWORD_LENGTH = Normal false
  /\ forall (credentials : JsValue) (n : JsNumber),
       ordinary credentials = true ->
       Get credentials "password" = Normal (JsNumeric n) ->
       ToBoolean (JsNumeric n) = true ->
       exists errors,
         AuthValidation.validateLoginCredentials credentials = Normal errors
         /\ ~ mentions "password" errors.
Proof.
  do 3 (split; [reflexivity|]).
  intros credentials n Hord Hp Htruthy.
  assert (Hs : isStructure credentials = true).
  { eapply field_read_structure; [right; reflexivity | exact Hp | discriminate]. }
  destruct (Get_structure credentials "email" Hs) as [email He].
  rewrite (validate_structure _ _ _ Hs He Hp).
  destruct (checkEmail_returns email [] (Get_ordinary _ _ _ Hord He))
    as [a [-> Ha]].
  cbn [bindC app]. rewrite checkPassword_number by assumption.
  exists a. split; [reflexivity|].
  intros [e [Hin Hfield]]. apply Ha in Hin. congruence.
Qed.

End ValidationClaims.

Lemma validate_not_a_structure_witness :
  typeof (JsNumeric (numberOfZ 5)) <> "object"
  /\ @AuthValidation.validateLoginCredentials sampleBuiltins
       (JsNumeric (numberOfZ 5)) = Normal [generalError].
Proof.
  assert (Hshape : typeof (JsNumeric (numberOfZ 5)) <> "object")
    by discriminate.
  split; [exact Hshape|].
  apply (@validate_not_a_structure sampleBuiltins (JsNumeric (numberOfZ 5))).
  right; right; exact Hshape.
Defined.

(** C5 as stated fails.  This structure has no [email] field, and its
    password holds a [length] with an own [toString]: the comparison
    [password.length < 6] throws, so that validation yields no list at
    all, and no error with field ["email"]. *)
Lemma validate_missing_email_counterexample :
  isStructure
    (JsObject
       [("password",
         JsObject [("length", JsObject [("toString", JsNull)])])]) = true
  /\ Get (JsObject
            [("password",
              JsObject [("length", JsObject [("toString", JsNull)])])])
       "email" = Normal JsUndefined
  /\ @AuthValidation.validateLoginCredentials sampleBuiltins
       (JsObject
          [("password",
            JsObject [("length", JsObject [("toString", JsNull)])])])
     = Throw TypeError.
Proof. repeat split. Qed.

Lemma validate_missing_email_witness :
  exists rest,
    @AuthValidation.validateLoginCredentials sampleBuiltins
      (JsObject [("toString", JsNull);
                 ("password", JsObject [("toString", JsNull)])])
    = Normal (emailRequired :: rest)
    /\ mentions "email" (emailRequired :: rest).
Proof.
  exact (proj1 (@validate_missing_email sampleBuiltins
                  (JsObject [("toString", JsNull);
                             ("password", JsObject [("toString", JsNull)])])
                  (JsObject [("toString", JsNull)])
                  eq_refl eq_refl eq_refl) eq_refl).
Defined.

(** C6 as stated fails.  The password ["123"] is shorter than 6
    characters, but the email holds an own [toString] property: converting
    it for the pattern throws, before the password is looked at, and no
    list is yielded. *)
Lemma validate_password_length_counterexample :
  Get (JsObject [("email", JsObject [("toString", JsNull)]);
                 ("password", JsString "123")]) "password"
  = Normal (JsString "123")
  /\ (String.length "123" < 6)%nat
  /\ @AuthValidation.validateLoginCredentials sampleBuiltins
       (JsObject [("email", JsObject [("toString", JsNull)]);
                  ("password", JsString "123")])
     = Throw TypeError.
Proof.
  split; [reflexivity|]. split; [cbn; lia | reflexivity].
Qed.

Lemma validate_password_length_witness :
  exists errors,
    @AuthValidation.validateLoginCredentials sampleBuiltins
      (JsObject [("toString", JsNull);
                 ("email", JsString "test@example.com");
                 ("password", JsString "123")])
    = Normal errors
    /\ mentions "password" errors.
Proof.
  refine (proj1 (proj1 (@validate_password_length sampleBuiltins
                          (JsObject [("toString", JsNull);
                                     ("email", JsString "test@example.com");
                                     ("password", JsString "123")])
                          (JsString "test@example.com")
                          "123" eq_refl eq_refl) _) eq_refl).
  cbn. lia.
Defined.

(* ================================================================= *)
(** ** Authentication *)

Lemma IsStrictlyEqual_spec (v : JsValue) (literal : string) :
  IsStrictlyEqual v literal = true <-> v = JsString literal.
Proof.
  destruct v; simpl; try (split; [discriminate | intro Heq; discriminate]).
  rewrite String.eqb_eq. split; [now intros -> | now injection 1].
Qed.

(** The call waits for the timer and settles with the verdict. *)
Lemma authenticateUser_runs (c : LoginCredentials) (w : World) :
  AuthService.authenticateUser c w
  = (Normal (verdict c), snd (AuthService.simulateDatabaseDelay w)).
Proof.
  unfold AuthService.authenticateUser, verdict, bindA,
    AuthService.simulateDatabaseDelay, awaitTimeout.
  now destruct (IsStrictlyEqual _ _ && IsStrictlyEqual _ _).
Qed.

Lemma authenticateUser_settles (c : LoginCredentials) (w : World) :
  settled (AuthService.authenticateUser c) w = Normal (verdict c).
Proof. unfold settled. now rewrite authenticateUser_runs. Qed.

Lemma reference_pair_decided (c : LoginCredentials) :
  IsStrictlyEqual (LoginCredentials.email c)
    AuthService.VALID_CREDENTIALS_email
  && IsStrictlyEqual (LoginCredentials.password c)
       AuthService.VALID_CREDENTIALS_password = true
  <-> isReferencePair c.
Proof.
  unfold isReferencePair.
  now rewrite andb_true_iff, !IsStrictlyEqual_spec.
Qed.

(** C1.  [authenticateUser] answers success, 200, "Login successful!" and
    the user record exactly when the email is ["test@example.com"] and the
    password is ["password123"]; on every other input it answers failure,
    401, "Invalid credentials." and no data. *)
Theorem authenticateUser_outcome (c : LoginCredentials) (w : World) :
  exists r,
    settled (AuthService.authenticateUser c) w = Normal r
    /\ (AuthResult.success r = true <-> isReferencePair c)
    /\ (isReferencePair c ->
        r = loginSuccessful (JsString "test@example.com")
        /\ AuthResult.statusCode r = 200
        /\ AuthResult.message r = "Login successful!")
    /\ (~ isReferencePair c ->
        r = invalidCredentials
        /\ AuthResult.success r = false
        /\ AuthResult.statusCode r = 401
        /\ AuthResult.message r = "Invalid credentials."
        /\ AuthResult.data r = None).
Proof.
  exists (verdict c). split; [apply authenticateUser_settles|].
  pose proof (reference_pair_decided c) as Hdec. unfold verdict.
  destruct (IsStrictlyEqual _ _ && IsStrictlyEqual _ _).
  - assert (Href : isReferencePair c) by now apply Hdec.
    split; [now split|]. split.
    + intros _. destruct Href as [Hemail _]. rewrite Hemail. now repeat split.
    + intro Hnot. contradiction.
  - assert (Hnot : ~ isReferencePair c).
    { intro Href. apply Hdec in Href. discriminate. }
    split; [split; [discriminate | contradiction]|]. split.
    + intro Href. contradiction.
    + intros _. now repeat split.
Qed.

(** C9.  Two invocations of [authenticateUser] on the same credentials,
    in whatever state of the clock, the timers and the console, settle
    with the same result: the same success flag, message and status. *)
Theorem authenticateUser_deterministic
        (c : LoginCredentials) (w1 w2 : World) :
  exists r1 r2,
    settled (AuthService.authenticateUser c) w1 = Normal r1
    /\ settled (AuthService.authenticateUser c) w2 = Normal r2
    /\ AuthResult.success r1 = AuthResult.success r2
    /\ AuthResult.message r1 = AuthResult.message r2
    /\ AuthResult.statusCode r1 = AuthResult.statusCode r2
    /\ r1 = r2.
Proof.
  do 2 eexists.
  split; [apply authenticateUser_settles|].
  split; [apply authenticateUser_settles|].
  repeat split.
Qed.

(* ================================================================= *)
(** ** Responses and the handler *)

Section HandlerFacts.
Context `{JsBuiltins}.

Lemma POST_blocks (request : Request) :
  POST request
  = (startTime <- performance_now ;;
     call (console_time "login-request") ;;
     tryCatch (tryBlock startTime request) catchBlock)%async.
Proof. reflexivity. Qed.

Lemma POST_runs_blocks (request : Request) (w : World) :
  POST request w
  = tryCatch (tryBlock (now w) request) catchBlock (entered w).
Proof. reflexivity. Qed.

(** Whatever is thrown inside the [try] block ends as the 500 response. *)
Lemma POST_caught (request : Request) (w : World) (e : JsError) :
  fst (tryBlock (now w) request (entered w)) = Throw e ->
  settled (POST request) w = Normal internalServerError.
Proof.
  intro Hthrow. unfold settled. rewrite POST_runs_blocks. unfold tryCatch.
  destruct (tryBlock (now w) request (entered w)) as [[response|thrown] w'];
    simpl in Hthrow; [discriminate | reflexivity].
Qed.

Lemma tryBlock_parse_throws (request : Request) (t : Z) (w : World)
      (e : JsError) :
  Request.json request = Throw e ->
  fst (tryBlock t request w) = Throw e.
Proof.
  intro Hjson. unfold tryBlock, bindA, liftC, call. now rewrite Hjson.
Qed.

Lemma tryBlock_validation_throws (request : Request) (t : Z) (w : World)
      (body : JsValue) (e : JsError) :
  Request.json request = Normal body ->
  AuthValidation.validateLoginCredentials body = Throw e ->
  fst (tryBlock t request w) = Throw e.
Proof.
  intros Hjson Hvalidate. unfold tryBlock, bindA, liftC, call.
  now rewrite Hjson, Hvalidate.
Qed.

Lemma tryBlock_sanitization_throws (request : Request) (t : Z) (w : World)
      (body : JsValue) (e : JsError) :
  Request.json request = Normal body ->
  AuthValidation.validateLoginCredentials body = Normal [] ->
  AuthValidation.sanitizeCredentials body = Throw e ->
  fst (tryBlock t request w) = Throw e.
Proof.
  intros Hjson Hvalidate Hsanitize. unfold tryBlock, bindA, liftC, call.
  rewrite Hjson, Hvalidate. cbn [List.length Nat.ltb Nat.leb].
  now rewrite Hsanitize.
Qed.

(** A body that fails validation is answered with its errors. *)
Lemma POST_rejects (request : Request) (w : World) (body : JsValue)
      (errors : list ValidationError) :
  Request.json request = Normal body ->
  AuthValidation.validateLoginCredentials body = Normal errors ->
  errors <> [] ->
  settled (POST request) w = Normal (validationFailed errors).
Proof.
  intros Hjson Hvalidate Hsome.
  unfold settled. rewrite POST_runs_blocks.
  unfold tryCatch, tryBlock, bindA, liftC, call, performance_now.
  rewrite Hjson, Hvalidate.
  destruct errors as [|e errors]; [now elim Hsome | reflexivity].
Qed.

(** A body that passes validation and is sanitized is answered with the
    verdict on the sanitized record. *)
Lemma POST_authenticates (request : Request) (w : World) (body : JsValue)
      (c : LoginCredentials) :
  Request.json request = Normal body ->
  AuthValidation.validateLoginCredentials body = Normal [] ->
  AuthValidation.sanitizeCredentials body = Normal c ->
  settled (POST request) w = ResponseUtils.createAuthResponse (verdict c).
Proof.
  intros Hjson Hvalidate Hsanitize.
  unfold settled. rewrite POST_runs_blocks.
  unfold tryCatch, tryBlock, bindA, liftC, call, performance_now.
  rewrite Hjson, Hvalidate. cbn [List.length Nat.ltb Nat.leb].
  rewrite Hsanitize, authenticateUser_runs.
  unfold verdict.
  now destruct (IsStrictlyEqual _ _ && IsStrictlyEqual _ _).
Qed.

(** C3.  The responder maps a list of validation errors to status 400
    with [{success: false, message: "Validation failed", errors}]; an
    [AuthResult] (status 200 or 401) to its own status with its success
    flag and message; and an exception thrown while parsing, validating,
    sanitizing or authenticating -- anything thrown inside the [try]
    block -- is caught and answered with status 500 and
    [{success: false, message: "Internal server error"}].  The handler
    hands the responder the errors of a failed validation, and otherwise
    the verdict on the sanitized record. *)
Theorem responder_mapping (errors : list ValidationError)
        (authResult : AuthResult) (request : Request) (w : World) :
  AuthResult.statusCode authResult = 200
  \/ AuthResult.statusCode authResult = 401 ->
  ResponseUtils.createValidationErrorResponse errors
  = Normal (validationFailed errors)
  /\ (exists response,
        ResponseUtils.createAuthResponse authResult = Normal response
        /\ Response.status response = AuthResult.statusCode authResult
        /\ Body.success (Response.body response)
           = AuthResult.success authResult
        /\ Body.message (Response.body response)
           = AuthResult.message authResult)
  /\ (forall e,
        Request.json request = Throw e ->
        settled (POST request) w = Normal internalServerError)
  /\ (forall body e,
        Request.json request = Normal body ->
        AuthValidation.validateLoginCredentials body = Throw e ->
        settled (POST request) w = Normal internalServerError)
  /\ (forall body e,
        Request.json request = Normal body ->
        AuthValidation.validateLoginCredentials body = Normal [] ->
        AuthValidation.sanitizeCredentials body = Throw e ->
        settled (POST request) w = Normal internalServerError)
  /\ (forall e,
        fst (tryBlock (now w) request (entered w)) = Throw e ->
        settled (POST request) w = Normal internalServerError)
  /\ (forall body failures,
        Request.json request = Normal body ->
        AuthValidation.validateLoginCredentials body = Normal failures ->
        failures <> [] ->
        settled (POST request) w = Normal (validationFailed failures))
  /\ (forall body c,
        Request.json request = Normal body ->
        AuthValidation.validateLoginCredentials body = Normal [] ->
        AuthValidation.sanitizeCredentials body = Normal c ->
        settled (POST request) w
        = ResponseUtils.createAuthResponse (verdict c)).
Proof.
  intro Hstatus. split; [reflexivity|]. split.
  - unfold ResponseUtils.createAuthResponse, NextResponse.json.
    destruct Hstatus as [-> | ->]; cbn; eexists; repeat split.
  - repeat split.
    + intros e Hjson. eapply POST_caught, tryBlock_parse_throws, Hjson.
    + intros body e Hjson Hvalidate.
      eapply POST_caught, tryBlock_validation_throws; eassumption.
    + intros body e Hjson Hvalidate Hsanitize.
      eapply POST_caught, tryBlock_sanitization_throws; eassumption.
    + intros e. apply POST_caught.
    + intros body failures. apply POST_rejects.
    + intros body c. apply POST_authenticates.
Qed.

(** C2.  A request whose body is
    [{email: "test@example.com", password: "password123"}] is answered
    with status 200 and [success: true]. *)
Theorem POST_reference_login (w : World) :
  exists response,
    settled (POST {| Request.json :=
                       Normal (JsObject
                                 [("email", JsString "test@example.com");
                                  ("password", JsString "password123")]) |})
            w
    = Normal response
    /\ Response.status response = 200
    /\ Body.success (Response.body response) = true
    /\ Body.message (Response.body response) = "Login successful!"
    /\ Body.data (Response.body response)
       = AuthResult.data (loginSuccessful (JsString "test@example.com")).
Proof.
  set (body := JsObject [("email", JsString "test@example.com");
                         ("password", JsString "password123")]).
  assert (Hvalid : AuthValidation.validateLoginCredentials body = Normal [])
    by reflexivity.
  assert (Hclean : AuthValidation.sanitizeCredentials body
                   = Normal {| LoginCredentials.email :=
                                 JsString "test@example.com";
                               LoginCredentials.password :=
                                 JsString "password123" |})
    by reflexivity.
  rewrite (POST_authenticates {| Request.json := Normal body |} w body _
             eq_refl Hvalid Hclean).
  eexists. split; [reflexivity|]. now repeat split.
Qed.

(** C7.  A request whose body is the empty object is answered with status
    400 and exactly two errors: email required, then password required. *)
Theorem POST_empty_object (w : World) :
  settled (POST {| Request.json := Normal (JsObject []) |}) w
  = Normal (validationFailed [emailRequired; passwordRequired])
  /\ Response.status (validationFailed [emailRequired; passwordRequired])
     = 400
  /\ Body.errors
       (Response.body (validationFailed [emailRequired; passwordRequired]))
     = Some [emailRequired; passwordRequired].
Proof.
  assert (Hvalidate : AuthValidation.validateLoginCredentials (JsObject [])
                      = Normal [emailRequired; passwordRequired]).
  { rewrite (validate_structure (JsObject []) JsUndefined JsUndefined)
      by reflexivity.
    now rewrite checkEmail_missing by reflexivity. }
  split; [|split; reflexivity].
  apply (POST_rejects {| Request.json := Normal (JsObject []) |} w
           (JsObject [])); [reflexivity | exact Hvalidate|].
  discriminate.
Qed.

End HandlerFacts.

Lemma responder_mapping_witness :
  ResponseUtils.createValidationErrorResponse [emailRequired]
  = Normal (validationFailed [emailRequired])
  /\ (exists response,
        ResponseUtils.createAuthResponse invalidCredentials = Normal response
        /\ Response.status response = 401)
  /\ @settled Response
       (@POST sampleBuiltins {| Request.json := Throw SyntaxError |})
       initialWorld
     = Normal internalServerError.
Proof.
  pose proof (@responder_mapping sampleBuiltins [emailRequired]
                invalidCredentials {| Request.json := Throw SyntaxError |}
                initialWorld (or_intror eq_refl))
    as [Hvalidation [[response [Hauth [Hstatus _]]] [Hparse _]]].
  split; [exact Hvalidation|]. split.
  - exists response. split; [exact Hauth | exact Hstatus].
  - exact (Hparse SyntaxError eq_refl).
Defined.

(* ================================================================= *)
(** ** Sanitization *)

(** [x || ''] a second time changes nothing. *)
Lemma logicalOr_empty_idempotent (v : JsValue) :
  logicalOr (logicalOr v (JsString "")) (JsString "")
  = logicalOr v (JsString "").
Proof.
  unfold logicalOr. destruct (ToBoolean v) eqn:Hv; [now rewrite Hv | reflexivity].
Qed.

(** The email of a sanitized record is normalised. *)
Lemma sanitized_email_normalised (credentials : JsValue)
      (c : LoginCredentials) :
  AuthValidation.sanitizeCredentials credentials = Normal c ->
  normalised (LoginCredentials.email c).
Proof.
  unfold AuthValidation.sanitizeCredentials.
  destruct (Get credentials "email") as [email|]; [|discriminate].
  destruct (Get credentials "password") as [password|] eqn:Hp;
    cbn [bindC].
  - destruct email as [| |b|n|s|elements|properties]; cbn;
      try discriminate; intro Hc; injection Hc as <-; cbn;
      try (exists ""; split; reflexivity).
    unfold logicalOr. cbn [ToBoolean].
    destruct (String.eqb (toLowerCase (trim s)) "") eqn:Hempty; cbn.
    + exists "". split; reflexivity.
    + exists (toLowerCase (trim s)). split; [reflexivity|].
      apply normalise_idempotent.
  - destruct email; cbn; discriminate.
Qed.

(** The password of a sanitized record is what [x || ''] leaves alone. *)
Lemma sanitized_password_kept (credentials : JsValue)
      (c : LoginCredentials) :
  AuthValidation.sanitizeCredentials credentials = Normal c ->
  logicalOr (LoginCredentials.password c) (JsString "")
  = LoginCredentials.password c.
Proof.
  unfold AuthValidation.sanitizeCredentials.
  destruct (Get credentials "email") as [email|]; [|discriminate].
  destruct (Get credentials "password") as [password|]; cbn [bindC].
  - destruct email; cbn; try discriminate;
      intro Hc; injection Hc as <-; cbn;
      apply logicalOr_empty_idempotent.
  - destruct email; cbn; discriminate.
Qed.

(** A second pass over a sanitized record returns it. *)
Lemma sanitize_again (credentials : JsValue) (c : LoginCredentials) :
  AuthValidation.sanitizeCredentials credentials = Normal c ->
  AuthValidation.sanitizeCredentials (LoginCredentials.object c) = Normal c.
Proof.
  intro Hfirst.
  destruct (sanitized_email_normalised _ _ Hfirst) as [s [Hemail Hfixed]].
  pose proof (sanitized_password_kept _ _ Hfirst) as Hpassword.
  destruct c as [email password]. cbn in Hemail, Hpassword. subst email.
  unfold AuthValidation.sanitizeCredentials, LoginCredentials.object.
  cbn. rewrite Hfixed, Hpassword.
  unfold logicalOr. cbn [ToBoolean].
  now destruct (String.eqb s "") eqn:Hs;
    [apply String.eqb_eq in Hs; subst s|].
Qed.

(** Sanitization returns on a structure whose email is a string or is
    missing. *)
Lemma sanitizeCredentials_returns (credentials email : JsValue) :
  isStructure credentials = true ->
  Get credentials "email" = Normal email ->
  stringOrMissing email = true ->
  exists c, AuthValidation.sanitizeCredentials credentials = Normal c.
Proof.
  intros Hs He Htext.
  destruct (Get_structure credentials "password" Hs) as [password Hp].
  unfold AuthValidation.sanitizeCredentials. rewrite He, Hp.
  destruct email; try discriminate; cbn; eauto.
Qed.

(** C8.  Sanitization is idempotent.  A well-formed input -- a structure
    whose email is a string or is missing -- is sanitized to a record; and
    whenever an input is sanitized to a record, sanitizing that record
    gives the same record again: its email is already trimmed and
    lower-cased (doing both twice equals doing them once), and the second
    pass leaves its password as it is. *)
Theorem sanitizeCredentials_idempotent (credentials : JsValue) :
  (forall email,
     isStructure credentials = true ->
     Get credentials "email" = Normal email ->
     stringOrMissing email = true ->
     exists c, AuthValidation.sanitizeCredentials credentials = Normal c)
  /\ (forall c,
        AuthValidation.sanitizeCredentials credentials = Normal c ->
        AuthValidation.sanitizeCredentials (LoginCredentials.object c)
        = Normal c
        /\ normalised (LoginCredentials.email c)
        /\ logicalOr (LoginCredentials.password c) (JsString "")
           = LoginCredentials.password c)
  /\ (forall s, toLowerCase (trim (toLowerCase (trim s)))
                = toLowerCase (trim s)).
Proof.
  split; [|split].
  - intros email. apply sanitizeCredentials_returns.
  - intros c Hc.
    split; [exact (sanitize_again _ _ Hc)|].
    split; [exact (sanitized_email_normalised _ _ Hc)|].
    exact (sanitized_password_kept _ _ Hc).
  - exact normalise_idempotent.
Qed.

Example sanitizeCredentials_twice :
  AuthValidation.sanitizeCredentials
    (JsObject [("email", JsString "  Test@Example.COM ");
               ("password", JsString " Secret ")])
  = Normal {| LoginCredentials.email := JsString "test@example.com";
              LoginCredentials.password := JsString " Secret " |}
  /\ AuthValidation.sanitizeCredentials
       (LoginCredentials.object
          {| LoginCredentials.email := JsString "test@example.com";
             LoginCredentials.password := JsString " Secret " |})
     = Normal {| LoginCredentials.email := JsString "test@example.com";
                 LoginCredentials.password := JsString " Secret " |}.
Proof. split; reflexivity. Qed.

(* ================================================================= *)
(** ** The handler always responds *)

Section HandlerTotal.
Context `{JsBuiltins}.

Lemma createAuthResponse_of_authentication (c : LoginCredentials)
      (w : World) :
  exists authResult response,
    settled (AuthService.authenticateUser c) w = Normal authResult
    /\ ResponseUtils.createAuthResponse authResult = Normal response
    /\ Response.status response = AuthResult.statusCode authResult
    /\ (Response.status response = 200 \/ Response.status response = 401).
Proof.
  rewrite authenticateUser_settles. unfold verdict.
  destruct (IsStrictlyEqual _ _ && IsStrictlyEqual _ _);
    do 2 eexists; (split; [reflexivity|]); cbn; auto.
Qed.

(** Every request is answered, with one of the four statuses of the
    interface. *)
Lemma POST_returns (request : Request) (w : World) :
  exists response,
    settled (POST request) w = Normal response
    /\ In (Response.status response) [200; 400; 401; 500].
Proof.
  unfold settled. rewrite POST_runs_blocks. unfold tryCatch.
  destruct (tryBlock (now w) request (entered w))
    as [[response|thrown] w'] eqn:Htry.
  - exists response. split; [reflexivity|].
    revert Htry. unfold tryBlock, bindA, liftC, call, performance_now.
    destruct (Request.json request) as [body|]; [|discriminate].
    destruct (AuthValidation.validateLoginCredentials body)
      as [[|e errors]|]; [| |discriminate].
    + cbn [List.length Nat.ltb Nat.leb].
      destruct (AuthValidation.sanitizeCredentials body) as [c|];
        [|discriminate].
      match goal with
      | |- context [AuthService.authenticateUser c ?w0] =>
          destruct (createAuthResponse_of_authentication c w0)
            as [authResult [r [Hauth [Hr [_ Hstatus]]]]];
          unfold settled in Hauth;
          destruct (AuthService.authenticateUser c w0) as [result w1]
      end.
      cbn in Hauth. subst result. rewrite Hr.
      intro Heq. injection Heq as <- _.
      destruct Hstatus as [-> | ->]; cbn; auto.
    + cbn. intro Heq. injection Heq as <- _. cbn. auto.
  - eexists. split; [reflexivity|]. cbn. auto.
Qed.

End HandlerTotal.

(* ================================================================= *)
(** ** The handler on the inputs of the interface table *)

Section Examples.
Context `{JsBuiltins}.

Example POST_other_account (w : World) :
  settled (POST {| Request.json :=
                     Normal (JsObject
                               [("email", JsString "WRONG@Example.com");
                                ("password", JsString "password123")]) |}) w
  = Normal {| Response.status := 401;
              Response.body := {| Body.success := false;
                                  Body.message := "Invalid credentials.";
                                  Body.errors := None;
                                  Body.data := None |} |}.
Proof. reflexivity. Qed.

Example POST_short_password (w : World) :
  settled (POST {| Request.json :=
                     Normal (JsObject
                               [("email", JsString "test@example.com");
                                ("password", JsString "123")]) |}) w
  = Normal (validationFailed [passwordTooShort]).
Proof. reflexivity. Qed.

Example POST_unparsable_body (w : World) :
  settled (POST {| Request.json := Throw SyntaxError |}) w
  = Normal internalServerError.
Proof. reflexivity. Qed.

Example POST_body_not_an_object (w : World) :
  settled (POST {| Request.json := Normal (JsString "login") |}) w
  = Normal (validationFailed [generalError]).
Proof. reflexivity. Qed.

(** An email given as a one-element array prints as an address, passes
    validation, and has no [trim]: the exception is answered with 500. *)
Example POST_email_in_array (w : World) :
  settled (POST {| Request.json :=
                     Normal (JsObject
                               [("email", JsArray [JsString "a@b.c"]);
                                ("password", JsString "123456")]) |}) w
  = Normal internalServerError.
Proof. reflexivity. Qed.

(** An own [toString] property makes the conversion inside validation
    throw. *)
Example validate_throws :
  AuthValidation.validateLoginCredentials
    (JsObject [("email", JsObject [("toString", JsNull)]);
               ("password", JsString "123456")])
  = Throw TypeError.
Proof. reflexivity. Qed.

End Examples.

(* ================================================================= *)
(** * Further properties *)

(* ================================================================= *)
(** ** The shape of an accepted email *)

(** Every code unit of the string belongs to the set. *)
Fixpoint allIn (set : CharSet) (s : string) : bool :=
  match s with
  | EmptyString => true
  | String c rest => setMatches set c && allIn set rest
  end.

(** A string without white space and without [@] *)
Fixpoint noSpaceOrAt (s : string) : bool :=
  match s with
  | EmptyString => true
  | String c rest =>
      negb (isWhiteSpace c) && negb (Ascii.eqb c "@") && noSpaceOrAt rest
  end.

(** A string without white space *)
Fixpoint noSpace (s : string) : bool :=
  match s with
  | EmptyString => true
  | String c rest => negb (isWhiteSpace c) && noSpace rest
  end.

Definition termSet (term : Term) : CharSet :=
  match term with One set | OneOrMore set => set end.

(** A term whose set holds a code unit exactly when it holds its lower
    case *)
Definition caseStable (term : Term) : Prop :=
  forall c,
    setMatches (termSet term) (toLowerCaseUnit c)
    = setMatches (termSet term) c.

(** A string that does not end with white space *)
Fixpoint endsClean (s : string) : bool :=
  match s with
  | EmptyString => true
  | String c EmptyString => negb (isWhiteSpace c)
  | String _ rest => endsClean rest
  end.

Lemma append_empty (s : string) : (s ++ "")%string = s.
Proof. induction s as [|c rest IH]; simpl; [reflexivity | now rewrite IH]. Qed.

Lemma matches_literal (c : ascii) (rest : RegExp) (input : string) :
  matchesFrom (One (Literal c) :: rest) input = true
  <-> exists tail, input = String c tail /\ matchesFrom rest tail = true.
Proof.
  destruct input as [|d tail]; simpl.
  - split; [discriminate | intros [t [Habs _]]; discriminate].
  - rewrite andb_true_iff, Ascii.eqb_eq. split.
    + intros [-> Htail]. eauto.
    + intros [t [Heq Ht]]. injection Heq as -> ->. auto.
Qed.

(** [set+] takes a non-empty prefix inside the set and leaves the rest. *)
Lemma matches_more (set : CharSet) (rest : RegExp) (input : string) :
  matchesFrom (OneOrMore set :: rest) input = true
  <-> exists taken left : string,
        input = (taken ++ left)%string
        /\ taken <> EmptyString
        /\ allIn set taken = true
        /\ matchesFrom rest left = true.
Proof.
  induction input as [|c tail IH].
  - simpl. split; [discriminate|].
    intros [taken [left [Heq [Hne _]]]].
    destruct taken; [now elim Hne | discriminate].
  - change (matchesFrom (OneOrMore set :: rest) (String c tail))
      with (setMatches set c
            && (matchesFrom (OneOrMore set :: rest) tail
                || matchesFrom rest tail)).
    rewrite andb_true_iff, orb_true_iff, IH. split.
    + intros [Hc [[taken [left [-> [Hne [Hall Hrest]]]]] | Hrest]].
      * exists (String c taken), left. simpl. rewrite Hc, Hall.
        repeat split; [discriminate | assumption].
      * exists (String c EmptyString), tail. simpl. rewrite Hc.
        repeat split; [discriminate | assumption].
    + intros [taken [left [Heq [Hne [Hall Hrest]]]]].
      destruct taken as [|d taken]; [now elim Hne|].
      simpl in Heq, Hall. injection Heq as <- ->.
      apply andb_true_iff in Hall as [Hc Hall]. split; [exact Hc|].
      destruct taken as [|d taken].
      * right. exact Hrest.
      * left. exists (String d taken), left.
        repeat split; [discriminate | assumption | assumption].
Qed.

Lemma matches_end (input : string) :
  matchesFrom [] input = true <-> input = EmptyString.
Proof. destruct input; simpl; split; congruence. Qed.

Lemma allIn_noSpaceOrAt (s : string) :
  allIn (NoneOf [ClassWhiteSpace; ClassChar "@"]) s = noSpaceOrAt s.
Proof.
  induction s as [|c rest IH]; simpl; trivial.
  rewrite IH, orb_false_r, negb_orb. reflexivity.
Qed.

Lemma EMAIL_REGEX_terms :
  AuthValidation.EMAIL_REGEX
  = [ OneOrMore (NoneOf [ClassWhiteSpace; ClassChar "@"]);
      One (Literal "@");
      OneOrMore (NoneOf [ClassWhiteSpace; ClassChar "@"]);
      One (Literal ".");
      OneOrMore (NoneOf [ClassWhiteSpace; ClassChar "@"]) ].
Proof. reflexivity. Qed.

Section EmailShape.
Context `{JsBuiltins}.

(** On a string, [test] is the match of the string itself. *)
Lemma RegExpTest_string (regexp : RegExp) (s : string) :
  RegExpTest regexp (JsString s) = Normal true
  <-> matchesFrom regexp s = true.
Proof.
  unfold RegExpTest. cbn [ToString bindC].
  split; [now injection 1 | now intros ->].
Qed.

(** X1.  [EMAIL_REGEX.test] accepts a string exactly when it reads
    local [@] domain [.] tld, the three parts non-empty and free of white
    space and of [@]. *)
Theorem EMAIL_REGEX_shape (s : string) :
  RegExpTest AuthValidation.EMAIL_REGEX (JsString s) = Normal true
  <-> exists local domain tld : string,
        s = (local ++ "@" ++ domain ++ "." ++ tld)%string
        /\ local <> "" /\ domain <> "" /\ tld <> ""
        /\ noSpaceOrAt local = true
        /\ noSpaceOrAt domain = true
        /\ noSpaceOrAt tld = true.
Proof.
  rewrite RegExpTest_string, EMAIL_REGEX_terms.
  split.
  - intro Hmatch.
    apply matches_more in Hmatch
      as [local [after [-> [Hl [Hlocal Hmatch]]]]].
    apply matches_literal in Hmatch as [after' [-> Hmatch]].
    apply matches_more in Hmatch
      as [domain [after [-> [Hd [Hdomain Hmatch]]]]].
    apply matches_literal in Hmatch as [after' [-> Hmatch]].
    apply matches_more in Hmatch
      as [tld [after [-> [Ht [Htld Hmatch]]]]].
    apply matches_end in Hmatch as ->.
    rewrite allIn_noSpaceOrAt in Hlocal, Hdomain, Htld.
    exists local, domain, tld. rewrite append_empty.
    repeat split; assumption.
  - intros [local [domain [tld [-> [Hl [Hd [Ht [Hlocal [Hdomain Htld]]]]]]]]].
    apply matches_more. exists local, ("@" ++ domain ++ "." ++ tld)%string.
    rewrite allIn_noSpaceOrAt. repeat split; trivial.
    apply matches_literal. eexists. split; [reflexivity|].
    apply matches_more. exists domain, ("." ++ tld)%string.
    rewrite allIn_noSpaceOrAt. repeat split; trivial.
    apply matches_literal. eexists. split; [reflexivity|].
    apply matches_more. exists tld, "".
    rewrite allIn_noSpaceOrAt. repeat split; trivial.
    now rewrite append_empty.
Qed.

End EmailShape.

(* ================================================================= *)
(** ** What validation reports *)

Definition emailInvalid : ValidationError :=
  {| ValidationError.field := "email";
     ValidationError.message := "Invalid email format." |}.

(** The errors of an email that is a string, and of a password that is *)
Definition emailErrors (e : string) : list ValidationError :=
  if String.eqb e "" then [emailRequired]
  else if matchesFrom AuthValidation.EMAIL_REGEX e then []
       else [emailInvalid].

Definition passwordErrors (p : string) : list ValidationError :=
  if String.eqb p "" then [passwordRequired]
  else if (String.length p <? 6)%nat then [passwordTooShort]
       else [].

Lemma Normal_injective {A : Type} (a b : A) : Normal a = Normal b -> a = b.
Proof. now injection 1. Qed.

Section ValidationReports.
Context `{JsBuiltins}.

Lemma checkEmail_string (e : string) (errors : list ValidationError) :
  checkEmail (JsString e) errors = Normal (errors ++ emailErrors e).
Proof.
  unfold checkEmail, emailErrors, RegExpTest, AuthValidation.push.
  cbn [ToBoolean ToString bindC].
  destruct (String.eqb e ""); cbn [negb]; [reflexivity|].
  destruct (matchesFrom AuthValidation.EMAIL_REGEX e); cbn [negb];
    [now rewrite app_nil_r | reflexivity].
Qed.

(** The email check adds nothing, or one of its two errors. *)
Lemma checkEmail_cases (email : JsValue) (errors after : list ValidationError) :
  checkEmail email errors = Normal after ->
  exists a,
    after = errors ++ a
    /\ (a = [] \/ a = [emailRequired] \/ a = [emailInvalid]).
Proof.
  unfold checkEmail, AuthValidation.push.
  destruct (ToBoolean email); cbn [negb].
  - destruct (RegExpTest AuthValidation.EMAIL_REGEX email) as [[|]|];
      cbn; intro Hafter; try discriminate; injection Hafter as <-.
    + exists []. rewrite app_nil_r. auto.
    + exists [emailInvalid]. auto.
  - intro Hafter. injection Hafter as <-. exists [emailRequired]. auto.
Qed.

(** The password check adds nothing, or one of its two errors. *)
Lemma checkPassword_cases (password : JsValue)
      (errors after : list ValidationError) :
  checkPassword password errors = Normal after ->
  exists b,
    after = errors ++ b
    /\ (b = [] \/ b = [passwordRequired] \/ b = [passwordTooShort]).
Proof.
  unfold checkPassword, AuthValidation.push.
  destruct (ToBoolean password); cbn [negb].
  - destruct (Get password "length") as [len|]; [|discriminate].
    cbn [bindC].
    destruct (IsLessThan len AuthValidation.MIN_PASSWORD_LENGTH) as [[|]|];
      cbn [bindC]; intro Hafter; try discriminate; injection Hafter as <-.
    + exists [passwordTooShort]. auto.
    + exists []. rewrite app_nil_r. auto.
  - intro Hafter. injection Hafter as <-. exists [passwordRequired]. auto.
Qed.

Lemma isStructure_false_general (credentials : JsValue) :
  isStructure credentials = false ->
  AuthValidation.validateLoginCredentials credentials = Normal [generalError].
Proof.
  unfold isStructure, AuthValidation.validateLoginCredentials.
  destruct (ToBoolean credentials); cbn [andb negb orb];
    [now intros -> | reflexivity].
Qed.

Lemma validate_strings_table (credentials : JsValue) (e p : string) :
  Get credentials "email" = Normal (JsString e) ->
  Get credentials "password" = Normal (JsString p) ->
  AuthValidation.validateLoginCredentials credentials
  = Normal (emailErrors e ++ passwordErrors p).
Proof.
  intros He Hp.
  assert (Hs : isStructure credentials = true).
  { eapply field_read_structure; [right; reflexivity | exact Hp | discriminate]. }
  rewrite (validate_structure _ _ _ Hs He Hp).
  rewrite checkEmail_string. cbn [bindC app].
  now rewrite checkPassword_string.
Qed.

Lemma emailErrors_none (e : string) :
  emailErrors e = [] <-> matchesFrom AuthValidation.EMAIL_REGEX e = true.
Proof.
  unfold emailErrors. split.
  - destruct (String.eqb e ""); [discriminate|].
    now destruct (matchesFrom AuthValidation.EMAIL_REGEX e).
  - intro Hmatch.
    assert (He : String.eqb e "" = false).
    { destruct e; [discriminate | reflexivity]. }
    now rewrite He, Hmatch.
Qed.

Lemma passwordErrors_none (p : string) :
  passwordErrors p = [] <-> (6 <= String.length p)%nat.
Proof.
  unfold passwordErrors. split.
  - destruct (String.eqb p ""); [discriminate|].
    destruct (Nat.ltb_spec (String.length p) 6); [discriminate | trivial].
  - intro Hlong.
    assert (Hp : String.eqb p "" = false).
    { destruct p; [simpl in Hlong; lia | reflexivity]. }
    apply Nat.ltb_ge in Hlong. now rewrite Hp, Hlong.
Qed.

(** X2.  On credentials whose email and password are strings, validation
    returns the errors of the email followed by those of the password; it
    passes exactly when the email has the accepted shape and the password
    has at least 6 characters. *)
Theorem validate_strings (credentials : JsValue) (e p : string) :
  Get credentials "email" = Normal (JsString e) ->
  Get credentials "password" = Normal (JsString p) ->
  AuthValidation.validateLoginCredentials credentials
  = Normal (emailErrors e ++ passwordErrors p)
  /\ (AuthValidation.validateLoginCredentials credentials = Normal []
      <-> matchesFrom AuthValidation.EMAIL_REGEX e = true
          /\ (6 <= String.length p)%nat).
Proof.
  intros He Hp.
  pose proof (validate_strings_table _ _ _ He Hp) as Hvalidate.
  split; [exact Hvalidate|]. rewrite Hvalidate.
  rewrite <- emailErrors_none, <- passwordErrors_none. split.
  - intro Hnone. apply Normal_injective in Hnone.
    now apply app_eq_nil in Hnone.
  - now intros [-> ->].
Qed.

(** X3.  Whenever validation returns, it returns either the general
    error alone, or at most one error about the email followed by at most
    one about the password: never more than two errors, never two about
    one field, never the password before the email. *)
Theorem validate_error_shape (credentials : JsValue)
        (errors : list ValidationError) :
  AuthValidation.validateLoginCredentials credentials = Normal errors ->
  (errors = [generalError]
   \/ exists a b,
        errors = a ++ b
        /\ (a = [] \/ a = [emailRequired] \/ a = [emailInvalid])
        /\ (b = [] \/ b = [passwordRequired] \/ b = [passwordTooShort]))
  /\ (List.length errors <= 2)%nat.
Proof.
  intro Hvalidate.
  assert (Hshape :
    errors = [generalError]
    \/ exists a b,
         errors = a ++ b
         /\ (a = [] \/ a = [emailRequired] \/ a = [emailInvalid])
         /\ (b = [] \/ b = [passwordRequired] \/ b = [passwordTooShort])).
  { destruct (isStructure credentials) eqn:Hs.
    - destruct (Get_structure credentials "email" Hs) as [email He].
      destruct (Get_structure credentials "password" Hs) as [password Hp].
      rewrite (validate_structure _ _ _ Hs He Hp) in Hvalidate.
      destruct (checkEmail email []) as [a|] eqn:Hemail; [|discriminate].
      cbn [bindC] in Hvalidate.
      destruct (checkPassword password a) as [after|] eqn:Hpassword;
        [|discriminate].
      cbn [bindC] in Hvalidate. injection Hvalidate as <-.
      destruct (checkEmail_cases _ _ _ Hemail) as [a' [-> Ha]].
      destruct (checkPassword_cases _ _ _ Hpassword) as [b [-> Hb]].
      right. exists a', b. auto.
    - rewrite (isStructure_false_general _ Hs) in Hvalidate.
      injection Hvalidate as <-. now left. }
  split; [exact Hshape|].
  destruct Hshape as [-> | [a [b [-> [Ha Hb]]]]]; [simpl; lia|].
  rewrite length_app.
  destruct Ha as [-> | [-> | ->]], Hb as [-> | [-> | ->]]; simpl; lia.
Qed.

End ValidationReports.

Lemma validate_strings_witness :
  @AuthValidation.validateLoginCredentials sampleBuiltins
    (JsObject [("email", JsString "not-an-address");
               ("password", JsString "12345")])
  = Normal [emailInvalid; passwordTooShort].
Proof.
  exact (proj1 (@validate_strings sampleBuiltins
                  (JsObject [("email", JsString "not-an-address");
                             ("password", JsString "12345")])
                  "not-an-address" "12345" eq_refl eq_refl)).
Defined.

Lemma validate_error_shape_witness :
  ([emailRequired; passwordRequired] = [generalError]
   \/ exists a b,
        [emailRequired; passwordRequired] = a ++ b
        /\ (a = [] \/ a = [emailRequired] \/ a = [emailInvalid])
        /\ (b = [] \/ b = [passwordRequired] \/ b = [passwordTooShort]))
  /\ (List.length [emailRequired; passwordRequired] <= 2)%nat.
Proof.
  exact (@validate_error_shape sampleBuiltins (JsObject [])
           [emailRequired; passwordRequired] eq_refl).
Defined.

(* ================================================================= *)
(** ** What sanitization does *)

Lemma trimEnd_noSpace (s : string) : noSpace s = true -> trimEnd s = s.
Proof.
  induction s as [|c rest IH]; simpl; trivial.
  rewrite andb_true_iff, negb_true_iff. intros [Hc Hrest].
  rewrite (IH Hrest), Hc. now destruct rest.
Qed.

(** Trimming leaves a string without white space as it is. *)
Lemma trim_noSpace (s : string) : noSpace s = true -> trim s = s.
Proof.
  intro Hs. unfold trim.
  rewrite trimStart_fixes_clean; [now apply trimEnd_noSpace|].
  destruct s as [|c rest]; simpl in *; trivial.
  now apply andb_true_iff in Hs as [-> _].
Qed.

Lemma trimEnd_endsClean (s : string) : endsClean (trimEnd s) = true.
Proof.
  induction s as [|c rest IH]; simpl; trivial.
  destruct (trimEnd rest) as [|d kept].
  - case_eq (isWhiteSpace c); intro Hc; simpl; trivial. now rewrite Hc.
  - exact IH.
Qed.

(** Lower-casing the input does not change whether it matches, when no
    set of the pattern tells a letter from its lower case. *)
Lemma matchesFrom_toLowerCase (pattern : RegExp) (input : string) :
  Forall caseStable pattern ->
  matchesFrom pattern (toLowerCase input) = matchesFrom pattern input.
Proof.
  intro Hstable. revert input.
  induction Hstable as [|term rest Hterm _ IH]; intro input.
  - now destruct input.
  - destruct term as [set|set]; unfold caseStable in Hterm; simpl in Hterm.
    + destruct input as [|c tail]; simpl; trivial. now rewrite Hterm, IH.
    + induction input as [|c tail IHinput]; trivial.
      change (toLowerCase (String c tail))
        with (String (toLowerCaseUnit c) (toLowerCase tail)).
      change (matchesFrom (OneOrMore set :: rest)
                (String (toLowerCaseUnit c) (toLowerCase tail)))
        with (setMatches set (toLowerCaseUnit c)
              && (matchesFrom (OneOrMore set :: rest) (toLowerCase tail)
                  || matchesFrom rest (toLowerCase tail))).
      change (matchesFrom (OneOrMore set :: rest) (String c tail))
        with (setMatches set c
              && (matchesFrom (OneOrMore set :: rest) tail
                  || matchesFrom rest tail)).
      now rewrite Hterm, IHinput, IH.
Qed.

Lemma EMAIL_REGEX_caseStable : Forall caseStable AuthValidation.EMAIL_REGEX.
Proof.
  rewrite EMAIL_REGEX_terms.
  repeat constructor; intro c;
    destruct c as [[] [] [] [] [] [] [] []]; reflexivity.
Qed.

(** A set that holds no white space *)
Definition spaceFree (term : Term) : Prop :=
  forall c, setMatches (termSet term) c = true -> isWhiteSpace c = false.

Lemma matchesFrom_noSpace (pattern : RegExp) (input : string) :
  Forall spaceFree pattern ->
  matchesFrom pattern input = true -> noSpace input = true.
Proof.
  intro Hfree. revert input.
  induction Hfree as [|term rest Hterm _ IH]; intro input.
  - now destruct input.
  - destruct term as [set|set]; unfold spaceFree in Hterm; simpl in Hterm.
    + destruct input as [|c tail]; simpl; [discriminate|].
      rewrite !andb_true_iff. intros [Hc Htail].
      rewrite (Hterm c Hc). auto.
    + induction input as [|c tail IHinput]; [discriminate|].
      change (matchesFrom (OneOrMore set :: rest) (String c tail))
        with (setMatches set c
              && (matchesFrom (OneOrMore set :: rest) tail
                  || matchesFrom rest tail)).
      rewrite andb_true_iff, orb_true_iff. intros [Hc Htail].
      simpl. rewrite (Hterm c Hc). simpl.
      destruct Htail; auto.
Qed.

(** A string of the accepted shape holds no white space. *)
Lemma EMAIL_REGEX_noSpace (s : string) :
  matchesFrom AuthValidation.EMAIL_REGEX s = true -> noSpace s = true.
Proof.
  apply matchesFrom_noSpace. rewrite EMAIL_REGEX_terms.
  repeat constructor; intro c;
    destruct c as [[] [] [] [] [] [] [] []]; (reflexivity || discriminate).
Qed.

(** Every value but [null] and [undefined] answers a property read. *)
Lemma Get_defined (v : JsValue) (name : string) :
  v <> JsNull -> v <> JsUndefined -> exists w, Get v name = Normal w.
Proof.
  intros Hnull Hundefined.
  destruct v as [| |b|n|s|elements|properties]; simpl;
    try (now elim Hnull); try (now elim Hundefined); eauto.
  - destruct (String.eqb name "length"); [eauto|].
    destruct (arrayIndex name) as [i|]; [destruct (String.get i s)|]; eauto.
  - destruct (String.eqb name "length"); [eauto|].
    destruct (arrayIndex name); eauto.
  - destruct (lookup name properties); eauto.
Qed.

(** Sanitization by the kind of value the email is *)
Lemma sanitizeCredentials_by_email (credentials email password : JsValue) :
  Get credentials "email" = Normal email ->
  Get credentials "password" = Normal password ->
  AuthValidation.sanitizeCredentials credentials
  = match email with
    | JsUndefined | JsNull =>
        Normal {| LoginCredentials.email := JsString "";
                  LoginCredentials.password :=
                    logicalOr password (JsString "") |}
    | JsString s =>
        Normal {| LoginCredentials.email :=
                    logicalOr (JsString (toLowerCase (trim s))) (JsString "");
                  LoginCredentials.password :=
                    logicalOr password (JsString "") |}
    | _ => Throw TypeError
    end.
Proof.
  unfold AuthValidation.sanitizeCredentials. intros -> ->.
  now destruct email.
Qed.

(** X4.  Sanitization fails in exactly two cases, each time with a
    [TypeError]: the input is [null] or [undefined], or its email is
    present and is not a string (it has no [trim] to call).  A missing or
    [null] email does not fail, and no password does. *)
Theorem sanitizeCredentials_throws (credentials : JsValue) :
  ((exists e, AuthValidation.sanitizeCredentials credentials = Throw e)
   <-> credentials = JsNull \/ credentials = JsUndefined
       \/ exists email,
            Get credentials "email" = Normal email
            /\ stringOrMissing email = false)
  /\ (forall e,
        AuthValidation.sanitizeCredentials credentials = Throw e ->
        e = TypeError).
Proof.
  assert (Hcases : credentials = JsNull \/ credentials = JsUndefined
                   \/ (credentials <> JsNull /\ credentials <> JsUndefined)).
  { destruct credentials; auto; right; right; split; discriminate. }
  destruct Hcases as [-> | [-> | [Hnull Hundefined]]].
  - split; [split; [auto | intros _; now exists TypeError]|].
    intros e He. cbn in He. congruence.
  - split; [split; [auto | intros _; now exists TypeError]|].
    intros e He. cbn in He. congruence.
  - destruct (Get_defined credentials "email" Hnull Hundefined)
      as [email He].
    destruct (Get_defined credentials "password" Hnull Hundefined)
      as [password Hp].
    rewrite (sanitizeCredentials_by_email _ _ _ He Hp).
    split; [split|].
    + intros [e Hthrow]. right; right. exists email.
      split; [exact He|]. now destruct email.
    + intros [Habs | [Habs | [email' [Heq Hfalse]]]];
        [contradiction | contradiction |].
      rewrite He in Heq. injection Heq as <-.
      destruct email; try discriminate; now exists TypeError.
    + intros e Hthrow. destruct email; congruence.
Qed.

(** X5.  A sanitized record has no missing field.  Its email is a string
    that is already lower-cased and trimmed, so it neither begins nor ends
    with white space; its password is the empty string or a truthy value,
    never [undefined], [null], [0] or [false]. *)
Theorem sanitized_record (credentials : JsValue) (c : LoginCredentials) :
  AuthValidation.sanitizeCredentials credentials = Normal c ->
  (exists s,
     LoginCredentials.email c = JsString s
     /\ toLowerCase s = s
     /\ trim s = s
     /\ startsClean s = true
     /\ endsClean s = true)
  /\ (LoginCredentials.password c = JsString ""
      \/ ToBoolean (LoginCredentials.password c) = true).
Proof.
  intro Hc. split.
  - destruct (sanitized_email_normalised _ _ Hc) as [s [Hemail Hfixed]].
    assert (Htrim : trim s = s).
    { rewrite <- Hfixed at 2. rewrite <- Hfixed at 1.
      now rewrite trim_toLowerCase, trim_idempotent. }
    exists s. split; [exact Hemail|].
    split; [rewrite <- Hfixed; apply toLowerCase_idempotent|].
    split; [exact Htrim|].
    rewrite <- Htrim. unfold trim. split.
    + apply trimEnd_keeps_clean, trimStart_startsClean.
    + apply trimEnd_endsClean.
  - pose proof (sanitized_password_kept _ _ Hc) as Hkept.
    unfold logicalOr in Hkept.
    destruct (ToBoolean (LoginCredentials.password c)); auto.
Qed.

Lemma sanitized_record_witness :
  (exists s,
     JsString "a b@c.d" = JsString s
     /\ toLowerCase s = s
     /\ trim s = s
     /\ startsClean s = true
     /\ endsClean s = true)
  /\ (JsString "" = JsString "" \/ ToBoolean (JsString "") = true).
Proof.
  exact (sanitized_record
           (JsObject [("email", JsString "  A b@C.d  ");
                      ("password", JsNumeric (numberOfZ 0))])
           {| LoginCredentials.email := JsString "a b@c.d";
              LoginCredentials.password := JsString "" |}
           eq_refl).
Defined.

(** Sanitization of string fields that pass the two checks *)
Lemma sanitizeCredentials_validated (credentials : JsValue) (e p : string) :
  Get credentials "email" = Normal (JsString e) ->
  Get credentials "password" = Normal (JsString p) ->
  matchesFrom AuthValidation.EMAIL_REGEX e = true ->
  (6 <= String.length p)%nat ->
  AuthValidation.sanitizeCredentials credentials
  = Normal {| LoginCredentials.email := JsString (toLowerCase e);
              LoginCredentials.password := JsString p |}.
Proof.
  intros He Hp Hmatch Hlong.
  assert (Hlower : String.eqb (toLowerCase e) "" = false).
  { destruct e; [discriminate | reflexivity]. }
  assert (Hkeep : String.eqb p "" = false).
  { destruct p; [simpl in Hlong; lia | reflexivity]. }
  rewrite (sanitizeCredentials_by_email _ _ _ He Hp).
  rewrite (trim_noSpace e (EMAIL_REGEX_noSpace e Hmatch)).
  unfold logicalOr. cbn [ToBoolean]. now rewrite Hlower, Hkeep.
Qed.

Section SanitizeAfterValidation.
Context `{JsBuiltins}.

(** X6.  Credentials with string fields that pass validation are
    sanitized to a record that passes validation again: the email is
    lower-cased (there is nothing to trim), the password is kept. *)
Theorem sanitize_after_validation (credentials : JsValue) (e p : string) :
  Get credentials "email" = Normal (JsString e) ->
  Get credentials "password" = Normal (JsString p) ->
  AuthValidation.validateLoginCredentials credentials = Normal [] ->
  AuthValidation.sanitizeCredentials credentials
  = Normal {| LoginCredentials.email := JsString (toLowerCase e);
              LoginCredentials.password := JsString p |}
  /\ AuthValidation.validateLoginCredentials
       (LoginCredentials.object
          {| LoginCredentials.email := JsString (toLowerCase e);
             LoginCredentials.password := JsString p |})
     = Normal [].
Proof.
  intros He Hp Hvalid.
  rewrite (validate_strings_table _ _ _ He Hp) in Hvalid.
  apply Normal_injective, app_eq_nil in Hvalid as [Hemail Hpassword].
  pose proof Hemail as Hmatch. apply emailErrors_none in Hmatch.
  pose proof Hpassword as Hlong. apply passwordErrors_none in Hlong.
  split.
  - now apply sanitizeCredentials_validated.
  - rewrite (validate_strings_table _ (toLowerCase e) p)
      by reflexivity.
    rewrite Hpassword, app_nil_r. f_equal.
    apply emailErrors_none.
    now rewrite (matchesFrom_toLowerCase _ _ EMAIL_REGEX_caseStable).
Qed.

End SanitizeAfterValidation.

Lemma sanitize_after_validation_witness :
  AuthValidation.sanitizeCredentials
    (JsObject [("email", JsString "Test@Example.COM");
               ("password", JsString "password123")])
  = Normal {| LoginCredentials.email := JsString "test@example.com";
              LoginCredentials.password := JsString "password123" |}
  /\ @AuthValidation.validateLoginCredentials sampleBuiltins
       (LoginCredentials.object
          {| LoginCredentials.email := JsString "test@example.com";
             LoginCredentials.password := JsString "password123" |})
     = Normal [].
Proof.
  exact (@sanitize_after_validation sampleBuiltins
           (JsObject [("email", JsString "Test@Example.COM");
                      ("password", JsString "password123")])
           "Test@Example.COM" "password123" eq_refl eq_refl eq_refl).
Defined.

(* ================================================================= *)
(** ** What the handler answers *)

(** The status for an email [e] and a password [p] that are strings *)
Definition loginStatus (e p : string) : Z :=
  if matchesFrom AuthValidation.EMAIL_REGEX e
     && (6 <=? String.length p)%nat
  then if String.eqb (toLowerCase e) "test@example.com"
          && String.eqb p "password123"
       then 200
       else 401
  else 400.

(** The two answers to an authentication *)
Definition authorized (email : JsValue) : Response :=
  {| Response.status := 200;
     Response.body :=
       {| Body.success := true;
          Body.message := "Login successful!";
          Body.errors := None;
          Body.data := AuthResult.data (loginSuccessful email) |} |}.

Definition unauthorized : Response :=
  {| Response.status := 401;
     Response.body := {| Body.success := false;
                         Body.message := "Invalid credentials.";
                         Body.errors := None;
                         Body.data := None |} |}.

Lemma createAuthResponse_verdict (c : LoginCredentials) :
  ResponseUtils.createAuthResponse (verdict c)
  = Normal (if IsStrictlyEqual (LoginCredentials.email c)
                 AuthService.VALID_CREDENTIALS_email
               && IsStrictlyEqual (LoginCredentials.password c)
                    AuthService.VALID_CREDENTIALS_password
            then authorized (LoginCredentials.email c)
            else unauthorized).
Proof.
  unfold verdict.
  now destruct (IsStrictlyEqual _ _ && IsStrictlyEqual _ _).
Qed.

Section HandlerAnswers.
Context `{JsBuiltins}.

(** X7.  For a body whose email and password are strings the status is
    decided by the two strings alone: 400 unless the email has the
    accepted shape and the password at least 6 characters, then 200 if
    the lower-cased email is the reference email and the password the
    reference password, and 401 otherwise.  The email is thus matched
    without regard to case, the password exactly. *)
Theorem POST_string_credentials (request : Request) (w : World)
        (body : JsValue) (e p : string) :
  Request.json request = Normal body ->
  Get body "email" = Normal (JsString e) ->
  Get body "password" = Normal (JsString p) ->
  exists response,
    settled (POST request) w = Normal response
    /\ Response.status response = loginStatus e p
    /\ (Response.status response = 200
        <-> toLowerCase e = "test@example.com" /\ p = "password123").
Proof.
  intros Hjson He Hp.
  pose proof (validate_strings_table _ _ _ He Hp) as Hvalidate.
  assert (Hreference :
            toLowerCase e = "test@example.com" /\ p = "password123" ->
            matchesFrom AuthValidation.EMAIL_REGEX e = true
            /\ (6 <= String.length p)%nat).
  { intros [Hemail ->]. split; [|simpl; lia].
    rewrite <- (matchesFrom_toLowerCase _ _ EMAIL_REGEX_caseStable).
    now rewrite Hemail. }
  unfold loginStatus.
  destruct (matchesFrom AuthValidation.EMAIL_REGEX e) eqn:Hmatch;
    [destruct (Nat.leb_spec 6 (String.length p)) as [Hlong|Hshort]|];
    cbn [andb].
  - (* both checks pass *)
    rewrite (proj2 (emailErrors_none e) Hmatch),
      (proj2 (passwordErrors_none p) Hlong) in Hvalidate.
    rewrite (POST_authenticates request w body _ Hjson Hvalidate
               (sanitizeCredentials_validated _ _ _ He Hp Hmatch Hlong)).
    rewrite createAuthResponse_verdict.
    cbn [LoginCredentials.email LoginCredentials.password IsStrictlyEqual].
    unfold AuthService.VALID_CREDENTIALS_email,
      AuthService.VALID_CREDENTIALS_password.
    destruct (String.eqb (toLowerCase e) "test@example.com") eqn:Hemail;
      [destruct (String.eqb p "password123") eqn:Hpassword|];
      cbn [andb]; eexists; (split; [reflexivity|]); (split; [reflexivity|]);
      cbn [Response.status authorized unauthorized].
    + apply String.eqb_eq in Hemail, Hpassword. now split.
    + apply String.eqb_neq in Hpassword.
      split; [discriminate | now intros [_ Habs]].
    + apply String.eqb_neq in Hemail.
      split; [discriminate | now intros [Habs _]].
  - (* the password is too short *)
    assert (Hsome : emailErrors e ++ passwordErrors p <> []).
    { intro Hnone. apply app_eq_nil in Hnone as [_ Hnone].
      apply passwordErrors_none in Hnone. lia. }
    rewrite (POST_rejects request w body _ Hjson Hvalidate Hsome).
    eexists. split; [reflexivity|]. split; [reflexivity|].
    cbn [Response.status validationFailed].
    split; [discriminate|]. intro Href.
    apply Hreference in Href as [_ Hlong]. lia.
  - (* the email is not of the accepted shape *)
    assert (Hsome : emailErrors e ++ passwordErrors p <> []).
    { intro Hnone. apply app_eq_nil in Hnone as [Hnone _].
      apply emailErrors_none in Hnone. congruence. }
    rewrite (POST_rejects request w body _ Hjson Hvalidate Hsome).
    eexists. split; [reflexivity|]. split; [reflexivity|].
    cbn [Response.status validationFailed].
    split; [discriminate|]. intro Href.
    apply Hreference in Href as [Habs _]. discriminate.
Qed.

(** X8.  Every request is answered, never rejected, with one of four
    responses: 200 with [success: true], "Login successful!" and the user
    record; 401 with "Invalid credentials." and neither errors nor data;
    400 with "Validation failed" and a non-empty list of errors; or 500
    with "Internal server error".  No other status, message or
    combination of keys leaves the handler. *)
Theorem POST_response_shape (request : Request) (w : World) :
  exists response,
    settled (POST request) w = Normal response
    /\ ((exists email, response = authorized email)
        \/ response = unauthorized
        \/ (exists errors, errors <> [] /\ response = validationFailed errors)
        \/ response = internalServerError).
Proof.
  destruct (Request.json request) as [body|thrown] eqn:Hjson.
  - destruct (AuthValidation.validateLoginCredentials body)
      as [[|e errors]|thrown] eqn:Hvalidate.
    + destruct (AuthValidation.sanitizeCredentials body)
        as [c|thrown] eqn:Hsanitize.
      * rewrite (POST_authenticates request w body c Hjson Hvalidate
                   Hsanitize), createAuthResponse_verdict.
        destruct (IsStrictlyEqual _ _ && IsStrictlyEqual _ _);
          eexists; (split; [reflexivity|]); eauto.
      * rewrite (POST_caught request w thrown);
          [eexists; split; [reflexivity | auto]|].
        eapply tryBlock_sanitization_throws; eassumption.
    + rewrite (POST_rejects request w body (e :: errors) Hjson Hvalidate)
        by discriminate.
      eexists. split; [reflexivity|].
      right; right; left. exists (e :: errors). split; [discriminate|reflexivity].
    + rewrite (POST_caught request w thrown);
        [eexists; split; [reflexivity | auto]|].
      eapply tryBlock_validation_throws; eassumption.
  - rewrite (POST_caught request w thrown);
      [eexists; split; [reflexivity | auto]|].
    now apply tryBlock_parse_throws.
Qed.

End HandlerAnswers.

Lemma POST_string_credentials_witness :
  exists response,
    @settled Response
      (@POST sampleBuiltins
         {| Request.json :=
              Normal (JsObject [("email", JsString "TEST@Example.com");
                                ("password", JsString "password123")]) |})
      initialWorld
    = Normal response
    /\ Response.status response
       = loginStatus "TEST@Example.com" "password123"
    /\ (Response.status response = 200
        <-> toLowerCase "TEST@Example.com" = "test@example.com"
            /\ "password123" = "password123").
Proof.
  exact (@POST_string_credentials sampleBuiltins
           {| Request.json :=
                Normal (JsObject [("email", JsString "TEST@Example.com");
                                  ("password", JsString "password123")]) |}
           initialWorld
           (JsObject [("email", JsString "TEST@Example.com");
                      ("password", JsString "password123")])
           "TEST@Example.com" "password123" eq_refl eq_refl eq_refl).
Defined.

Section OnlyTwoFields.
Context `{JsBuiltins}.

Lemma validate_reads_two_fields (b1 b2 : JsValue) :
  isStructure b1 = true -> isStructure b2 = true ->
  Get b1 "email" = Get b2 "email" ->
  Get b1 "password" = Get b2 "password" ->
  AuthValidation.validateLoginCredentials b1
  = AuthValidation.validateLoginCredentials b2.
Proof.
  intros Hs1 Hs2 Hemail Hpassword.
  destruct (Get_structure b1 "email" Hs1) as [email He].
  destruct (Get_structure b1 "password" Hs1) as [password Hp].
  rewrite (validate_structure b1 email password Hs1 He Hp).
  rewrite Hemail in He. rewrite Hpassword in Hp.
  now rewrite (validate_structure b2 email password Hs2 He Hp).
Qed.

Lemma sanitize_reads_two_fields (b1 b2 : JsValue) :
  Get b1 "email" = Get b2 "email" ->
  Get b1 "password" = Get b2 "password" ->
  AuthValidation.sanitizeCredentials b1
  = AuthValidation.sanitizeCredentials b2.
Proof.
  unfold AuthValidation.sanitizeCredentials. now intros -> ->.
Qed.

(** X12.  The handler reads nothing of the body but [email] and
    [password]: two bodies that are structures and agree on these two
    fields are answered alike, whatever else they hold. *)
Theorem POST_reads_two_fields (b1 b2 : JsValue) (w : World) :
  isStructure b1 = true -> isStructure b2 = true ->
  Get b1 "email" = Get b2 "email" ->
  Get b1 "password" = Get b2 "password" ->
  settled (POST {| Request.json := Normal b1 |}) w
  = settled (POST {| Request.json := Normal b2 |}) w.
Proof.
  intros Hs1 Hs2 Hemail Hpassword.
  pose proof (validate_reads_two_fields _ _ Hs1 Hs2 Hemail Hpassword)
    as Hvalidate.
  pose proof (sanitize_reads_two_fields _ _ Hemail Hpassword) as Hsanitize.
  destruct (AuthValidation.validateLoginCredentials b2)
    as [[|e errors]|thrown] eqn:Hv2.
  - destruct (AuthValidation.sanitizeCredentials b2)
      as [c|thrown] eqn:Hc2.
    + rewrite (POST_authenticates {| Request.json := Normal b1 |} w b1 c
                 eq_refl Hvalidate Hsanitize).
      now rewrite (POST_authenticates {| Request.json := Normal b2 |} w b2 c
                     eq_refl Hv2 Hc2).
    + rewrite (POST_caught {| Request.json := Normal b1 |} w thrown)
        by (eapply tryBlock_sanitization_throws;
            [reflexivity | exact Hvalidate | exact Hsanitize]).
      rewrite (POST_caught {| Request.json := Normal b2 |} w thrown)
        by (eapply tryBlock_sanitization_throws;
            [reflexivity | exact Hv2 | exact Hc2]).
      reflexivity.
  - rewrite (POST_rejects {| Request.json := Normal b1 |} w b1 (e :: errors)
               eq_refl Hvalidate) by discriminate.
    now rewrite (POST_rejects {| Request.json := Normal b2 |} w b2
                   (e :: errors) eq_refl Hv2) by discriminate.
  - rewrite (POST_caught {| Request.json := Normal b1 |} w thrown)
      by (eapply tryBlock_validation_throws;
          [reflexivity | exact Hvalidate]).
    rewrite (POST_caught {| Request.json := Normal b2 |} w thrown)
      by (eapply tryBlock_validation_throws; [reflexivity | exact Hv2]).
    reflexivity.
Qed.

End OnlyTwoFields.

Lemma POST_reads_two_fields_witness :
  @settled Response
    (@POST sampleBuiltins
       {| Request.json :=
            Normal (JsObject [("email", JsString "test@example.com");
                              ("password", JsString "password123");
                              ("remember", JsBoolean true)]) |})
    initialWorld
  = @settled Response
      (@POST sampleBuiltins
         {| Request.json :=
              Normal (JsObject [("password", JsString "password123");
                                ("email", JsString "test@example.com")]) |})
      initialWorld.
Proof.
  exact (@POST_reads_two_fields sampleBuiltins
           (JsObject [("email", JsString "test@example.com");
                      ("password", JsString "password123");
                      ("remember", JsBoolean true)])
           (JsObject [("password", JsString "password123");
                      ("email", JsString "test@example.com")])
           initialWorld eq_refl eq_refl eq_refl eq_refl).
Defined.

(* ================================================================= *)
(** ** What the handler leaves behind *)

(** The timers that [console.time] started and [console.timeEnd] has not
    ended, reading the calls in order. *)
Fixpoint running (calls : list ConsoleCall) (started : list string)
  : list string :=
  match calls with
  | [] => started
  | console_time label :: rest => running rest (started ++ [label])
  | console_timeEnd label :: rest =>
      running rest (remove string_dec label started)
  | _ :: rest => running rest started
  end.

Section HandlerTraces.
Context `{JsBuiltins}.

(** X10.  Whatever the outcome, the handler starts the timer
    ["login-request"] before anything else and has ended it when it
    answers.  When the answer is not the 500 response no timer is left
    running; when parsing the body throws, the timer ["parse-request"] is
    left running. *)
Theorem POST_timers (request : Request) (w : World) :
  exists added,
    console (snd (POST request w)) = console w ++ added
    /\ hd_error (map snd added) = Some (console_time "login-request")
    /\ ~ In "login-request" (running (map snd added) [])
    /\ (settled (POST request) w <> Normal internalServerError ->
        running (map snd added) [] = [])
    /\ (forall e,
          Request.json request = Throw e ->
          running (map snd added) [] = ["parse-request"]).
Proof.
  unfold settled. rewrite POST_runs_blocks.
  cbv [tryCatch tryBlock catchBlock entered bindA liftC call
       performance_now fst snd now lateness console].
  destruct (Request.json request) as [body|thrown].
  - destruct (AuthValidation.validateLoginCredentials body)
      as [[|e errors]|thrown].
    + cbn [List.length Nat.ltb Nat.leb].
      destruct (AuthValidation.sanitizeCredentials body) as [c|thrown].
      * rewrite authenticateUser_runs.
        unfold AuthService.simulateDatabaseDelay, awaitTimeout.
        rewrite createAuthResponse_verdict.
        cbv beta iota delta [fst snd now lateness console].
        repeat rewrite <- app_assoc. cbn [app].
        eexists. split; [reflexivity|].
        cbn [map snd hd_error]. split; [reflexivity|].
        split; [intros []|]. split; [reflexivity | discriminate].
      * repeat rewrite <- app_assoc. cbn [app].
        eexists. split; [reflexivity|].
        cbn [map snd hd_error]. split; [reflexivity|].
        split; [intros [Habs|[]]; discriminate|].
        split; [intro Habs; now elim Habs | discriminate].
    + cbn [List.length Nat.ltb Nat.leb].
      repeat rewrite <- app_assoc. cbn [app].
      eexists. split; [reflexivity|].
      cbn [map snd hd_error]. split; [reflexivity|].
      split; [intros []|]. split; [reflexivity | discriminate].
    + repeat rewrite <- app_assoc. cbn [app].
      eexists. split; [reflexivity|].
      cbn [map snd hd_error]. split; [reflexivity|].
      split; [intros [Habs|[]]; discriminate|].
      split; [intro Habs; now elim Habs | discriminate].
  - repeat rewrite <- app_assoc. cbn [app].
    eexists. split; [reflexivity|].
    cbn [map snd hd_error]. split; [reflexivity|].
    split; [intros [Habs|[]]; discriminate|].
    split; [intro Habs; now elim Habs | reflexivity].
Qed.

End HandlerTraces.

(* ================================================================= *)
(** ** The demonstration script  (test-refactoring.js)

    The script carries its own copies of the validation and of the
    service, and [loginRequest], a copy of the handler that takes the body
    itself and returns plain objects instead of responses. *)

Module RefactoringDemo.

(** What [loginRequest] returns: the validation outcome
    [{success, errors, statusCode}], the [AuthResult] as it is, or
    [{success, message, statusCode}]. *)
Module Result.
Record t : Type := make {
  success : bool;
  message : option string;
  statusCode : Z;
  errors : option (list ValidationError);
  data : option JsValue
}.
End Result.

Section WithBuiltins.
Context `{JsBuiltins}.

(** [/^[^\s@]+@[^\s@]+\.[^\s@]+$/], written out at its use *)
Definition emailPattern : RegExp :=
  [ OneOrMore (NoneOf [ClassWhiteSpace; ClassChar "@"]);
    One (Literal "@");
    OneOrMore (NoneOf [ClassWhiteSpace; ClassChar "@"]);
    One (Literal ".");
    OneOrMore (NoneOf [ClassWhiteSpace; ClassChar "@"]) ].

Definition validateLoginCredentials (credentials : JsValue)
  : Completion (list ValidationError) :=
  let errors : list ValidationError := [] in
  if negb (ToBoolean credentials)
     || negb (String.eqb (typeof credentials) "object")
  then
    Normal [ {| ValidationError.field := "general";
                ValidationError.message := "Invalid request body." |} ]
  else
    (email <- Get credentials "email" ;;
     password <- Get credentials "password" ;;
     errors <-
       (if negb (ToBoolean email) then
          Normal (errors ++
                    [{| ValidationError.field := "email";
                        ValidationError.message := "Email is required." |}])
        else
          wellFormed <- RegExpTest emailPattern email ;;
          if negb wellFormed then
            Normal (errors ++
                      [{| ValidationError.field := "email";
                          ValidationError.message :=
                            "Invalid email format." |}])
          else Normal errors) ;;
     errors <-
       (if negb (ToBoolean password) then
          Normal (errors ++
                    [{| ValidationError.field := "password";
                        ValidationError.message :=
                          "Password is required." |}])
        else
          length <- Get password "length" ;;
          tooShort <- IsLessThan length (numberOfZ 6) ;;
          if tooShort then
            Normal (errors ++
                      [{| ValidationError.field := "password";
                          ValidationError.message :=
                            "Password must be at least 6 characters." |}])
          else Normal errors) ;;
     Normal errors)%completion.

Definition sanitizeCredentials (credentials : JsValue)
  : Completion LoginCredentials :=
  (email <- Get credentials "email" ;;
   chained <-
     match email with
     | JsUndefined | JsNull => Normal JsUndefined
     | _ => trimmed <- callTrim email ;;
            Normal (JsString (toLowerCase trimmed))
     end ;;
   password <- Get credentials "password" ;;
   Normal {| LoginCredentials.email := logicalOr chained (JsString "");
             LoginCredentials.password := logicalOr password (JsString "") |}
  )%completion.

Definition authenticateUser (credentials : LoginCredentials)
  : Async AuthResult :=
  ((* Simulate database delay *)
   awaitTimeout 10 ;;
   if IsStrictlyEqual (LoginCredentials.email credentials)
        "test@example.com"
      && IsStrictlyEqual (LoginCredentials.password credentials)
           "password123"
   then
     ret {| AuthResult.success := true;
            AuthResult.message := "Login successful!";
            AuthResult.statusCode := 200;
            AuthResult.data :=
              Some (JsObject
                      [("user",
                        JsObject
                          [("email", LoginCredentials.email credentials);
                           ("id", JsString "user-123")])]) |}
   else
     ret {| AuthResult.success := false;
            AuthResult.message := "Invalid credentials.";
            AuthResult.statusCode := 401;
            AuthResult.data := None |})%async.


End WithBuiltins.
End RefactoringDemo.

Section DemoAgreement.
Context `{JsBuiltins}.





End DemoAgreement.
